(** * cloud-storage: the encrypted manifest engine and the key-backup codec

    A shallow embedding of [src/lib/manifest.ts] and [src/lib/crypto.ts].

    - JavaScript strings are Rocq [string]s read as UTF-8 text, so that
      [TextEncoder.encode] / [Buffer.from(s, 'utf-8')] is the list of the
      string's bytes.
    - An ISO-8601 timestamp ([new Date().toISOString()]) is identified with
      its epoch milliseconds, a [Z]: the ISO rendering is order preserving,
      and [new Date(s).getTime()] is the inverse reading.
    - Every [async] function is a computation [M A] over a [World] holding
      the module-level caches, the session storage, the remote blob store
      and the readings of the environment (clock, random bytes, UUIDs,
      transport faults).  A thrown exception keeps the state changes made
      before it, as in JavaScript.  Calls are run one after the other, as
      the engine expects of its caller; console output and a full
      [sessionStorage] are left out.
    - The WebCrypto primitives and [JSON] are parameters of the development. *)

From Stdlib Require Import ZArith NArith String Ascii List Lia.
From Stdlib Require Import Sorting.Sorted Sorting.Permutation.
From stdpp Require Import base option gmap strings list countable.
Import ListNotations.

Local Open Scope string_scope.
Local Open Scope Z_scope.

Abbreviation bytes := (list Byte.byte).

(** ** Hex text, as [Buffer.from(b).toString('hex')] and [Buffer.from(s, 'hex')] *)

Module Hex.

Definition digit (n : N) : ascii :=
  ascii_of_N (if (n <? 10)%N then 48 + n else 87 + n)%N.

Definition value (c : ascii) : option N :=
  let n := N_of_ascii c in
  if ((48 <=? n) && (n <=? 57))%N then Some (n - 48)%N
  else if ((97 <=? n) && (n <=? 102))%N then Some (n - 87)%N
  else if ((65 <=? n) && (n <=? 70))%N then Some (n - 55)%N
  else None.

(** [buf.toString('hex')]: two lowercase digits per byte. *)
Fixpoint encode (b : bytes) : string :=
  match b with
  | [] => EmptyString
  | x :: r =>
      let n := Byte.to_N x in
      String (digit (n / 16)) (String (digit (n mod 16)) (encode r))
  end.

(** [Buffer.from(s, 'hex')]: decodes pairs of digits and stops, without an
    error, at the first pair that is not hexadecimal or at a trailing single
    character. *)
Fixpoint decode_pairs (fuel : nat) (s : string) : bytes :=
  match fuel, s with
  | S fuel, String hi (String lo r) =>
      match value hi, value lo with
      | Some h, Some l =>
          match Byte.of_N (16 * h + l) with
          | Some x => x :: decode_pairs fuel r
          | None => []
          end
      | _, _ => []
      end
  | _, _ => []
  end.

Definition decode (s : string) : bytes := decode_pairs (String.length s) s.

End Hex.

(** ** Data model *)

Definition Timestamp := Z.

(** Modelled from the spec: the [EncryptedFileInfo] record of [./e2ee], which
    is not among the sources; the fields are those of the specification's
    FileEntry (identifier, name, size, MIME type, optional folder, favorite
    flag, upload time, per-file key and nonce). *)
Module FileInfo.
Record t := mk {
  fileId : string;
  fileName : string;
  fileSize : N;
  mimeType : string;
  folderId : option string;      (* [undefined] = root *)
  isFavorite : bool;
  uploadedAt : Timestamp;
  encryptionKey : string;
  nonce : string
}.

Definition with_fileName (v : string) (f : t) : t :=
  mk (fileId f) v (fileSize f) (mimeType f) (folderId f) (isFavorite f)
     (uploadedAt f) (encryptionKey f) (nonce f).
Definition with_folderId (v : option string) (f : t) : t :=
  mk (fileId f) (fileName f) (fileSize f) (mimeType f) v (isFavorite f)
     (uploadedAt f) (encryptionKey f) (nonce f).
Definition with_isFavorite (v : bool) (f : t) : t :=
  mk (fileId f) (fileName f) (fileSize f) (mimeType f) (folderId f) v
     (uploadedAt f) (encryptionKey f) (nonce f).
End FileInfo.

Module Folder.
Record t := mk {
  id : string;
  name : string;
  parentId : option string;      (* [undefined] = root *)
  createdAt : Timestamp;
  color : option string
}.

Definition with_name (v : string) (f : t) : t :=
  mk (id f) v (parentId f) (createdAt f) (color f).
End Folder.

Module Manifest.
Record t := mk {
  version : Z;
  files : list FileInfo.t;
  folders : list Folder.t;
  createdAt : Timestamp;
  updatedAt : Timestamp
}.

Definition with_files (v : list FileInfo.t) (m : t) : t :=
  mk (version m) v (folders m) (createdAt m) (updatedAt m).
Definition with_folders (v : list Folder.t) (m : t) : t :=
  mk (version m) (files m) v (createdAt m) (updatedAt m).
Definition with_updatedAt (v : Timestamp) (m : t) : t :=
  mk (version m) (files m) (folders m) (createdAt m) v.
End Manifest.

(** [StorageConfig] of the settings module. *)
Inductive Provider := s3 | r2 | custom.

Record StorageConfig := {
  provider : Provider;
  endpoint : string;
  region : string;
  bucket : string;
  accessKeyId : string;
  secretAccessKey : string;
  accountId : option string
}.

#[global] Instance Provider_eq_dec : EqDecision Provider.
Proof. solve_decision. Defined.
#[global] Instance StorageConfig_eq_dec : EqDecision StorageConfig.
Proof. solve_decision. Defined.

(** A WebCrypto [CryptoKey]: the algorithm it was made for, its length in
    bits and the key material. *)
Record CryptoKey := {
  key_algorithm : string;
  key_bits : N;
  key_material : bytes
}.

(** The document of a key backup, as [JSON.parse] yields it: an absent field
    is [None]. *)
Record KeyData := {
  kd_privateKey : option string;
  kd_publicKey : option string;
  kd_encrypted : option bool;
  kd_salt : option string;
  kd_iv : option string;
  kd_data : option string
}.

(** ** Errors and the world *)

Inductive Error :=
| JsError (message : string)   (* [throw new Error(message)] *)
| NotFound                     (* BlobStore: no such key *)
| TransportError               (* BlobStore: opaque transport failure *)
| OperationError               (* WebCrypto: AES-GCM tag check failed *)
| SyntaxError                  (* [JSON.parse] *)
| TypeError.

Inductive Result (A : Type) :=
| Ok (a : A)
| Raise (e : Error).
Arguments Ok {A} a.
Arguments Raise {A} e.

Record World := mkWorld {
  manifestCache : option Manifest.t;          (* [let manifestCache] *)
  masterKeyCache : option CryptoKey;          (* [let masterKeyCache] *)
  sessionStorage : option (gmap string string); (* [None]: [typeof sessionStorage === "undefined"] *)
  remote : StorageConfig -> gmap string bytes;  (* the blob store behind each configuration *)
  faults : nat -> bool;   (* outcome of the coming transport calls, [true] = failure *)
  clock : nat -> Z;       (* coming readings of [new Date()] *)
  uuids : nat -> string;  (* coming results of [crypto.randomUUID()] *)
  entropy : nat -> Byte.byte (* coming bytes of [crypto.getRandomValues] *)
}.

Definition set_manifestCache (v : option Manifest.t) (w : World) : World :=
  mkWorld v (masterKeyCache w) (sessionStorage w) (remote w) (faults w)
          (clock w) (uuids w) (entropy w).
Definition set_masterKeyCache (v : option CryptoKey) (w : World) : World :=
  mkWorld (manifestCache w) v (sessionStorage w) (remote w) (faults w)
          (clock w) (uuids w) (entropy w).
Definition set_sessionStorage (v : option (gmap string string)) (w : World) : World :=
  mkWorld (manifestCache w) (masterKeyCache w) v (remote w) (faults w)
          (clock w) (uuids w) (entropy w).
Definition set_remote (v : StorageConfig -> gmap string bytes) (w : World) : World :=
  mkWorld (manifestCache w) (masterKeyCache w) (sessionStorage w) v (faults w)
          (clock w) (uuids w) (entropy w).
Definition set_faults (v : nat -> bool) (w : World) : World :=
  mkWorld (manifestCache w) (masterKeyCache w) (sessionStorage w) (remote w) v
          (clock w) (uuids w) (entropy w).
Definition set_clock (v : nat -> Z) (w : World) : World :=
  mkWorld (manifestCache w) (masterKeyCache w) (sessionStorage w) (remote w)
          (faults w) v (uuids w) (entropy w).
Definition set_uuids (v : nat -> string) (w : World) : World :=
  mkWorld (manifestCache w) (masterKeyCache w) (sessionStorage w) (remote w)
          (faults w) (clock w) v (entropy w).
Definition set_entropy (v : nat -> Byte.byte) (w : World) : World :=
  mkWorld (manifestCache w) (masterKeyCache w) (sessionStorage w) (remote w)
          (faults w) (clock w) (uuids w) v.

(** ** The monad of effectful code *)

Definition M (A : Type) : Type := World -> Result A * World.

Definition ret {A} (a : A) : M A := fun w => (Ok a, w).
Definition throw {A} (e : Error) : M A := fun w => (Raise e, w).
Definition bind {A B} (m : M A) (k : A -> M B) : M B :=
  fun w => match m w with
           | (Ok a, w') => k a w'
           | (Raise e, w') => (Raise e, w')
           end.
(** [try { m } catch (error) { h error }] *)
Definition try_catch {A} (m : M A) (h : Error -> M A) : M A :=
  fun w => match m w with
           | (Ok a, w') => (Ok a, w')
           | (Raise e, w') => h e w'
           end.
Definition get_world : M World := fun w => (Ok w, w).
Definition modify (f : World -> World) : M unit := fun w => (Ok tt, f w).

Declare Scope js_scope.
Delimit Scope js_scope with js.
Notation "x <- c ;; k" := (bind c (fun x => k))
  (at level 100, c at next level, right associativity) : js_scope.
Notation "c ;;; k" := (bind c (fun _ => k))
  (at level 100, right associativity) : js_scope.
Local Open Scope js_scope.

(** ** The environment

    The readings the environment will give are streams; a reading takes the
    head and leaves the rest. *)

Definition rest {A} (n : nat) (s : nat -> A) : nat -> A := fun i => s (n + i)%nat.

(** [new Date().toISOString()] *)
Definition new_Date : M Timestamp :=
  fun w => (Ok (clock w 0%nat), set_clock (rest 1 (clock w)) w).

(** [crypto.randomUUID()] *)
Definition randomUUID : M string :=
  fun w => (Ok (uuids w 0%nat), set_uuids (rest 1 (uuids w)) w).

(** [crypto.getRandomValues(new Uint8Array(n))] *)
Definition getRandomValues (n : nat) : M bytes :=
  fun w => (Ok (map (entropy w) (seq 0 n)), set_entropy (rest n (entropy w)) w).

(** Whether the coming transport call fails. *)
Definition next_fault : M bool :=
  fun w => (Ok (faults w 0%nat), set_faults (rest 1 (faults w)) w).

(** Modelled from the spec: [downloadFromStorage] of the transport client
    [./storage-client], which is not among the sources.  Its contract is the
    [get(key)] of the specification's BlobStore: it returns the stored bytes,
    fails with [NotFound] when the key is absent, and may fail with an opaque
    [TransportError]. *)
Definition downloadFromStorage (config : StorageConfig) (key : string) : M bytes :=
  failed <- next_fault ;;
  if (failed : bool) then throw TransportError
  else
    w <- get_world ;;
    match remote w config !! key with
    | Some data => ret data
    | None => throw NotFound
    end.

(** Modelled from the spec: [uploadToStorage] of the transport client
    [./storage-client], which is not among the sources.  Its contract is the
    [put(key, bytes)] of the specification's BlobStore: it stores the bytes
    under the key, and may fail with an opaque [TransportError]. *)
Definition uploadToStorage (config : StorageConfig) (key : string) (data : bytes)
  : M unit :=
  failed <- next_fault ;;
  if (failed : bool) then throw TransportError
  else
    modify (fun w =>
      set_remote (fun c => if decide (c = config)
                           then <[key := data]> (remote w c)
                           else remote w c) w).

(** ** Platform functions *)

(** [TextEncoder.encode(s)], [Buffer.from(s, 'utf-8')] and their inverse. *)
Definition utf8_encode (s : string) : bytes := list_byte_of_string s.
Definition utf8_decode (b : bytes) : string := string_of_list_byte b.

(** [JSON.stringify(v, null, space)] and [JSON.parse(text)] at the type of the
    document; [JSON_parse] is [None] where [JSON.parse] throws. *)
Class JSON (A : Type) := {
  JSON_stringify : nat -> A -> string;
  JSON_parse : string -> option A
}.

(** [crypto.subtle]: HKDF and PBKDF2 over SHA-256 producing [bits] bits, and
    AES-GCM sealing and opening ([None]: the tag check fails). *)
Class WebCrypto := {
  HKDF_SHA256 : forall (salt info ikm : bytes) (bits : N), bytes;
  PBKDF2_SHA256 : forall (password salt : bytes) (iterations bits : N), bytes;
  AES_GCM_encrypt : forall (key iv plaintext : bytes), bytes;
  AES_GCM_decrypt : forall (key iv data : bytes), option bytes
}.

(** JavaScript truthiness of an optional string and of an optional flag. *)
Definition truthy (s : option string) : bool :=
  match s with
  | Some (String _ _) => true
  | _ => false
  end.

Definition truthy_flag (b : option bool) : bool :=
  match b with
  | Some true => true
  | _ => false
  end.

(** [Array.prototype.sort(cmp)]: a stable sort, [cmp a b <= 0] keeps [a]
    before [b]. *)
Fixpoint sort_insert {A} (cmp : A -> A -> Z) (x : A) (l : list A) : list A :=
  match l with
  | [] => [x]
  | y :: r => if cmp x y <=? 0 then x :: y :: r else y :: sort_insert cmp x r
  end.

Fixpoint Array_sort {A} (cmp : A -> A -> Z) (l : list A) : list A :=
  match l with
  | [] => []
  | x :: r => sort_insert cmp x (Array_sort cmp r)
  end.

(** [s.lastIndexOf(c)] *)
Fixpoint lastIndexOf_from (c : ascii) (s : string) (i : nat) (found : option nat)
  : option nat :=
  match s with
  | EmptyString => found
  | String a r =>
      lastIndexOf_from c r (S i) (if Ascii.eqb a c then Some i else found)
  end.

Definition lastIndexOf (c : ascii) (s : string) : option nat :=
  lastIndexOf_from c s 0%nat None.

(** [s.substring(n)] *)
Definition substring_from (n : nat) (s : string) : string :=
  String.substring n (String.length s - n) s.

(** * The manifest store, [src/lib/manifest.ts] *)

Definition MANIFEST_KEY : string := ".manifest.enc".
Definition SESSION_CACHE_KEY : string := "manifest_cache".
Definition SESSION_UNLOCKED_KEY : string := "manifest_unlocked".

(** Helper to add "(copy)" suffix to filename *)
Definition addCopySuffix (fileName : string) : string :=
  match lastIndexOf "." fileName with
  | None => fileName ++ " (copy)"
  | Some lastDot =>
      let name := String.substring 0 lastDot fileName in
      let ext := substring_from lastDot fileName in
      name ++ " (copy)" ++ ext
  end.

Section Engine.

Context {crypto : WebCrypto} {JSON_Manifest : JSON Manifest.t}
        {JSON_KeyData : JSON KeyData}.

(** Encrypt manifest with master key *)
Definition encryptManifest (manifest : Manifest.t) (masterKey : CryptoKey) : M bytes :=
  let data := utf8_encode (JSON_stringify 0 manifest) in
  iv <- getRandomValues 12 ;;
  let encrypted := AES_GCM_encrypt (key_material masterKey) iv data in
  (* Prepend IV to encrypted data *)
  ret (iv ++ encrypted)%list.

(** Decrypt manifest with master key *)
Definition decryptManifest (encryptedData : bytes) (masterKey : CryptoKey)
  : M Manifest.t :=
  let iv := take 12 encryptedData in
  let data := drop 12 encryptedData in
  match AES_GCM_decrypt (key_material masterKey) iv data with
  | None => throw OperationError
  | Some decrypted =>
      match JSON_parse (utf8_decode decrypted) with
      | Some manifest => ret manifest
      | None => throw SyntaxError
      end
  end.

(** Create empty manifest *)
Definition createEmptyManifest : M Manifest.t :=
  created <- new_Date ;;
  updated <- new_Date ;;
  ret (Manifest.mk 1 [] [] created updated).

(** Save manifest cache to sessionStorage *)
Definition saveToSessionCache (manifest : Manifest.t) : M unit :=
  modify (fun w =>
    match sessionStorage w with
    | Some s =>
        set_sessionStorage
          (Some (<[SESSION_CACHE_KEY := JSON_stringify 0 manifest]> s)) w
    | None => w
    end).

Definition markSessionUnlocked : M unit :=
  modify (fun w =>
    match sessionStorage w with
    | Some s => set_sessionStorage (Some (<[SESSION_UNLOCKED_KEY := "true"]> s)) w
    | None => w
    end).

(** Load manifest from sessionStorage *)
Definition loadFromSessionCache : M (option Manifest.t) :=
  w <- get_world ;;
  match sessionStorage w with
  | None => ret None
  | Some s =>
      match s !! SESSION_CACHE_KEY with
      | Some (String a r) => ret (JSON_parse (String a r))  (* parse errors ignored *)
      | _ => ret None
      end
  end.

(** Check if manifest is unlocked in this session *)
Definition isManifestUnlocked : M bool :=
  w <- get_world ;;
  match sessionStorage w with
  | None => ret false
  | Some s =>
      ret (bool_decide (s !! SESSION_UNLOCKED_KEY = Some "true")
           && bool_decide (manifestCache w <> None))
  end.

(** Check if manifest exists in storage *)
Definition manifestExists (config : StorageConfig) : M bool :=
  try_catch (downloadFromStorage config MANIFEST_KEY ;;; ret true)
            (fun _ => ret false).

(** The guard opening every mutator:
    [if (!manifestCache || !masterKeyCache) throw new Error("Manifest not unlocked")]. *)
Definition requireUnlocked : M (Manifest.t * CryptoKey) :=
  w <- get_world ;;
  match manifestCache w, masterKeyCache w with
  | Some cache, Some masterKey => ret (cache, masterKey)
  | _, _ => throw (JsError "Manifest not unlocked")
  end.

(** The tail closing every mutator: encrypt and upload, then update the
    session cache. *)
Definition sealAndUpload (config : StorageConfig) (cache : Manifest.t)
    (masterKey : CryptoKey) : M unit :=
  encryptedManifest <- encryptManifest cache masterKey ;;
  uploadToStorage config MANIFEST_KEY encryptedManifest ;;;
  saveToSessionCache cache.

(** Derive manifest key from private key using HKDF, [src/lib/crypto.ts] *)
Definition deriveManifestKeyFromPrivateKey (privateKeyHex : string) : M CryptoKey :=
  try_catch
    (let privateKeyBytes := Hex.decode privateKeyHex in
     (* Import private key bytes as raw key material for HKDF *)
     let keyMaterial := privateKeyBytes in
     (* Use zero salt for consistency (all users derive from same source) *)
     let salt := repeat Byte.x00 16 in
     let info := utf8_encode "manifest-encryption" in
     ret {| key_algorithm := "AES-GCM";
            key_bits := 256;
            key_material := HKDF_SHA256 salt info keyMaterial 256 |})
    (fun _ => throw (JsError "Failed to derive manifest key from private key")).

(** Initialize new manifest with private key *)
Definition initializeManifest (config : StorageConfig) (privateKeyHex : string)
  : M unit :=
  masterKey <- deriveManifestKeyFromPrivateKey privateKeyHex ;;
  manifest <- createEmptyManifest ;;
  encryptedManifest <- encryptManifest manifest masterKey ;;
  uploadToStorage config MANIFEST_KEY encryptedManifest ;;;
  modify (set_manifestCache (Some manifest)) ;;;
  modify (set_masterKeyCache (Some masterKey)) ;;;
  saveToSessionCache manifest ;;;
  markSessionUnlocked.

(** Unlock manifest with private key *)
Definition unlockManifest (config : StorageConfig) (privateKeyHex : string)
  : M Manifest.t :=
  masterKey <- deriveManifestKeyFromPrivateKey privateKeyHex ;;
  encryptedManifest <- downloadFromStorage config MANIFEST_KEY ;;
  manifest <- decryptManifest encryptedManifest masterKey ;;
  modify (set_manifestCache (Some manifest)) ;;;
  modify (set_masterKeyCache (Some masterKey)) ;;;
  saveToSessionCache manifest ;;;
  markSessionUnlocked ;;;
  ret manifest.

(** Sync manifest from server (re-download and decrypt); [null] is [None]. *)
Definition syncManifest (config : StorageConfig) : M (option Manifest.t) :=
  w <- get_world ;;
  match masterKeyCache w with
  | None => ret None                       (* "Cannot sync manifest: not unlocked" *)
  | Some masterKey =>
      try_catch
        (encryptedManifest <- downloadFromStorage config MANIFEST_KEY ;;
         manifest <- decryptManifest encryptedManifest masterKey ;;
         modify (set_manifestCache (Some manifest)) ;;;
         saveToSessionCache manifest ;;;
         ret (Some manifest))
        (fun _ => ret None)                (* "Failed to sync manifest:" *)
  end.

(** Get current manifest (from cache) *)
Definition getManifest : M (option Manifest.t) :=
  w <- get_world ;;
  match manifestCache w with
  | Some cache => ret (Some cache)
  | None =>
      cached <- loadFromSessionCache ;;
      match cached with
      | Some m => modify (set_manifestCache (Some m)) ;;; ret (Some m)
      | None => ret None
      end
  end.

(** Get all files from manifest *)
Definition getFilesFromManifest : M (list FileInfo.t) :=
  manifest <- getManifest ;;
  match manifest with
  | None => ret []
  | Some m =>
      (* Sort by uploadedAt descending *)
      ret (Array_sort (fun a b => FileInfo.uploadedAt b - FileInfo.uploadedAt a)
                      (Manifest.files m))
  end.

(** Get file info by ID *)
Definition getFileFromManifest (fileId : string) : M (option FileInfo.t) :=
  manifest <- getManifest ;;
  match manifest with
  | None => ret None
  | Some m =>
      ret (snd <$> list_find (fun f => FileInfo.fileId f = fileId) (Manifest.files m))
  end.

(** Add file to manifest and sync to R2 *)
Definition addFileToManifest (config : StorageConfig) (fileInfo : FileInfo.t)
  : M unit :=
  st <- requireUnlocked ;;
  let '(cache, masterKey) := st in
  let cache := Manifest.with_files (Manifest.files cache ++ [fileInfo])%list cache in
  now <- new_Date ;;
  let cache := Manifest.with_updatedAt now cache in
  modify (set_manifestCache (Some cache)) ;;;
  sealAndUpload config cache masterKey.

(** Remove file from manifest and sync to R2 *)
Definition removeFileFromManifest (config : StorageConfig) (fileId : string)
  : M unit :=
  st <- requireUnlocked ;;
  let '(cache, masterKey) := st in
  let cache :=
    Manifest.with_files
      (filter (fun f => FileInfo.fileId f <> fileId) (Manifest.files cache)) cache in
  now <- new_Date ;;
  let cache := Manifest.with_updatedAt now cache in
  modify (set_manifestCache (Some cache)) ;;;
  sealAndUpload config cache masterKey.

(** Remove multiple files from manifest and sync to R2 *)
Definition removeFilesFromManifest (config : StorageConfig) (fileIds : list string)
  : M unit :=
  st <- requireUnlocked ;;
  let '(cache, masterKey) := st in
  let idsSet : gset string := list_to_set fileIds in
  let cache :=
    Manifest.with_files
      (filter (fun f => FileInfo.fileId f ∉ idsSet) (Manifest.files cache)) cache in
  now <- new_Date ;;
  let cache := Manifest.with_updatedAt now cache in
  modify (set_manifestCache (Some cache)) ;;;
  sealAndUpload config cache masterKey.

(** Toggle file favorite status *)
Definition toggleFileFavorite (config : StorageConfig) (fileId : string) : M bool :=
  st <- requireUnlocked ;;
  let '(cache, masterKey) := st in
  match list_find (fun f => FileInfo.fileId f = fileId) (Manifest.files cache) with
  | None => throw (JsError "File not found")
  | Some (i, file) =>
      let file := FileInfo.with_isFavorite (negb (FileInfo.isFavorite file)) file in
      let cache := Manifest.with_files (<[i := file]> (Manifest.files cache)) cache in
      now <- new_Date ;;
      let cache := Manifest.with_updatedAt now cache in
      modify (set_manifestCache (Some cache)) ;;;
      sealAndUpload config cache masterKey ;;;
      ret (FileInfo.isFavorite file)
  end.

(** Create a new folder.  The source's guard for a manifest without a folder
    list never fires at the declared type [folders: Folder[]]. *)
Definition createFolder (config : StorageConfig) (name : string)
    (parentId color : option string) : M Folder.t :=
  st <- requireUnlocked ;;
  let '(cache, masterKey) := st in
  newId <- randomUUID ;;
  created <- new_Date ;;
  let folder := Folder.mk newId name parentId created color in
  let cache := Manifest.with_folders (Manifest.folders cache ++ [folder])%list cache in
  now <- new_Date ;;
  let cache := Manifest.with_updatedAt now cache in
  modify (set_manifestCache (Some cache)) ;;;
  sealAndUpload config cache masterKey ;;;
  ret folder.

(** Move file to folder *)
Definition moveFileToFolder (config : StorageConfig) (fileId : string)
    (folderId : option string) : M unit :=
  st <- requireUnlocked ;;
  let '(cache, masterKey) := st in
  match list_find (fun f => FileInfo.fileId f = fileId) (Manifest.files cache) with
  | None => throw (JsError "File not found")
  | Some (i, file) =>
      let file := FileInfo.with_folderId folderId file in
      let cache := Manifest.with_files (<[i := file]> (Manifest.files cache)) cache in
      now <- new_Date ;;
      let cache := Manifest.with_updatedAt now cache in
      modify (set_manifestCache (Some cache)) ;;;
      sealAndUpload config cache masterKey
  end.

(** Move multiple files to folder *)
Definition moveFilesToFolder (config : StorageConfig) (fileIds : list string)
    (folderId : option string) : M unit :=
  st <- requireUnlocked ;;
  let '(cache, masterKey) := st in
  let idsSet : gset string := list_to_set fileIds in
  let cache :=
    Manifest.with_files
      (map (fun f => if decide (FileInfo.fileId f ∈ idsSet)
                     then FileInfo.with_folderId folderId f else f)
           (Manifest.files cache)) cache in
  now <- new_Date ;;
  let cache := Manifest.with_updatedAt now cache in
  modify (set_manifestCache (Some cache)) ;;;
  sealAndUpload config cache masterKey.

(** Delete folder (and optionally its contents) *)
Definition deleteFolder (config : StorageConfig) (folderId : string)
    (deleteContents : bool) : M (list string) :=
  st <- requireUnlocked ;;
  let '(cache, masterKey) := st in
  (* Get files in folder *)
  let filesInFolder :=
    filter (fun f => FileInfo.folderId f = Some folderId) (Manifest.files cache) in
  let deletedFileIds :=
    if deleteContents then map FileInfo.fileId filesInFolder else [] in
  let cache :=
    if deleteContents then
      (* Delete files in folder *)
      Manifest.with_files
        (filter (fun f => FileInfo.folderId f <> Some folderId) (Manifest.files cache))
        cache
    else
      (* Move files to root *)
      Manifest.with_files
        (map (fun f => if decide (FileInfo.folderId f = Some folderId)
                       then FileInfo.with_folderId None f else f)
             (Manifest.files cache)) cache in
  (* Delete folder *)
  let cache :=
    Manifest.with_folders
      (filter (fun f => Folder.id f <> folderId) (Manifest.folders cache)) cache in
  now <- new_Date ;;
  let cache := Manifest.with_updatedAt now cache in
  modify (set_manifestCache (Some cache)) ;;;
  sealAndUpload config cache masterKey ;;;
  ret deletedFileIds.

(** Rename folder *)
Definition renameFolder (config : StorageConfig) (folderId newName : string)
  : M unit :=
  st <- requireUnlocked ;;
  let '(cache, masterKey) := st in
  match list_find (fun f => Folder.id f = folderId) (Manifest.folders cache) with
  | None => throw (JsError "Folder not found")
  | Some (i, folder) =>
      let folder := Folder.with_name newName folder in
      let cache :=
        Manifest.with_folders (<[i := folder]> (Manifest.folders cache)) cache in
      now <- new_Date ;;
      let cache := Manifest.with_updatedAt now cache in
      modify (set_manifestCache (Some cache)) ;;;
      sealAndUpload config cache masterKey
  end.

(** Rename file *)
Definition renameFile (config : StorageConfig) (fileId newName : string) : M unit :=
  st <- requireUnlocked ;;
  let '(cache, masterKey) := st in
  match list_find (fun f => FileInfo.fileId f = fileId) (Manifest.files cache) with
  | None => throw (JsError "File not found")
  | Some (i, file) =>
      let file := FileInfo.with_fileName newName file in
      let cache := Manifest.with_files (<[i := file]> (Manifest.files cache)) cache in
      now <- new_Date ;;
      let cache := Manifest.with_updatedAt now cache in
      modify (set_manifestCache (Some cache)) ;;;
      sealAndUpload config cache masterKey
  end.

(** [manifestCache.files.push(newFile)] on the module variable. *)
Definition pushFile (newFile : FileInfo.t) : M unit :=
  w <- get_world ;;
  match manifestCache w with
  | Some cache =>
      modify (set_manifestCache
                (Some (Manifest.with_files (Manifest.files cache ++ [newFile])%list cache)))
  | None => throw TypeError
  end.

(** The body of [for (const fileId of fileIds)] in [copyFilesToFolder]; the
    progress callback is effectful code of the caller. *)
Fixpoint copyEach (config : StorageConfig) (fileIds : list string)
    (targetFolderId : option string) (onProgress : option (nat -> nat -> M unit))
    (total : nat) (newFileIds : list string) (copied : nat) : M (list string) :=
  match fileIds with
  | [] => ret newFileIds
  | fileId :: rest =>
      w <- get_world ;;
      match manifestCache w with
      | None => throw TypeError
      | Some cache =>
          match list_find (fun f => FileInfo.fileId f = fileId) (Manifest.files cache) with
          | None =>
              (* continue *)
              copyEach config rest targetFolderId onProgress total newFileIds copied
          | Some (_, originalFile) =>
              (* Download the encrypted file *)
              encryptedData <- downloadFromStorage config ("files/" ++ fileId) ;;
              (* Generate new file ID *)
              newFileId <- randomUUID ;;
              (* Upload to new location *)
              uploadToStorage config ("files/" ++ newFileId) encryptedData ;;;
              (* Create new file entry (copy of original but with new ID and target folder) *)
              uploaded <- new_Date ;;
              let newFile :=
                FileInfo.mk
                  newFileId
                  (* Add "(copy)" to filename if copying to the same folder *)
                  (if decide (targetFolderId = FileInfo.folderId originalFile)
                   then addCopySuffix (FileInfo.fileName originalFile)
                   else FileInfo.fileName originalFile)
                  (FileInfo.fileSize originalFile)
                  (FileInfo.mimeType originalFile)
                  targetFolderId
                  (FileInfo.isFavorite originalFile)
                  uploaded
                  (FileInfo.encryptionKey originalFile)
                  (FileInfo.nonce originalFile) in
              pushFile newFile ;;;
              let newFileIds := (newFileIds ++ [newFileId])%list in
              let copied := S copied in
              match onProgress with
              | Some callback => callback copied total
              | None => ret tt
              end ;;;
              copyEach config rest targetFolderId onProgress total newFileIds copied
          end
      end
  end.

(** Copy files to folder (creates duplicates with new IDs) *)
Definition copyFilesToFolder (config : StorageConfig) (fileIds : list string)
    (targetFolderId : option string) (onProgress : option (nat -> nat -> M unit))
  : M (list string) :=
  requireUnlocked ;;;
  newFileIds <- copyEach config fileIds targetFolderId onProgress
                         (length fileIds) [] 0%nat ;;
  match newFileIds with
  | [] => ret newFileIds
  | _ :: _ =>
      w <- get_world ;;
      match manifestCache w with
      | None => throw TypeError
      | Some cache =>
          now <- new_Date ;;
          let cache := Manifest.with_updatedAt now cache in
          modify (set_manifestCache (Some cache)) ;;;
          match masterKeyCache w with
          | None => getRandomValues 12 ;;; throw TypeError
          | Some masterKey =>
              sealAndUpload config cache masterKey ;;;
              ret newFileIds
          end
      end
  end.

(** * The key-backup codec, [src/lib/crypto.ts] *)

(** The document [{ privateKey, publicKey }]. *)
Definition pairData (privateKey publicKey : option string) : KeyData :=
  {| kd_privateKey := privateKey; kd_publicKey := publicKey;
     kd_encrypted := None; kd_salt := None; kd_iv := None; kd_data := None |}.

(** [Buffer.from(field, 'hex')]; an absent field is a [TypeError]. *)
Definition Buffer_from_hex (field : option string) : M bytes :=
  match field with
  | Some text => ret (Hex.decode text)
  | None => throw TypeError
  end.

(** Export keypair to JSON file *)
Definition exportKeyPair (privateKey publicKey : string) (password : option string)
  : M string :=
  let keyData := pairData (Some privateKey) (Some publicKey) in
  (* Optionally encrypt with password *)
  if truthy password then
    let password := default "" password in
    salt <- getRandomValues 16 ;;
    let keyMaterial := utf8_encode password in
    let derivedKey :=
      {| key_algorithm := "AES-GCM"; key_bits := 256;
         key_material := PBKDF2_SHA256 keyMaterial salt 100000 256 |} in
    iv <- getRandomValues 12 ;;
    let plaintext := utf8_encode (JSON_stringify 0 keyData) in
    let encryptedData := AES_GCM_encrypt (key_material derivedKey) iv plaintext in
    let keyData :=
      {| kd_privateKey := None; kd_publicKey := None;
         kd_encrypted := Some true;
         kd_salt := Some (Hex.encode salt);
         kd_iv := Some (Hex.encode iv);
         kd_data := Some (Hex.encode encryptedData) |} in
    ret (JSON_stringify 2 keyData)
  else
    ret (JSON_stringify 2 keyData).

(** Import keypair from JSON file *)
Definition importKeyPair (jsonContent : string) (password : option string)
  : M KeyData :=
  match JSON_parse jsonContent with
  | None => throw SyntaxError
  | Some keyData =>
      if truthy_flag (kd_encrypted keyData) && truthy password then
        let password := default "" password in
        salt <- Buffer_from_hex (kd_salt keyData) ;;
        iv <- Buffer_from_hex (kd_iv keyData) ;;
        encryptedData <- Buffer_from_hex (kd_data keyData) ;;
        let keyMaterial := utf8_encode password in
        let derivedKey :=
          {| key_algorithm := "AES-GCM"; key_bits := 256;
             key_material := PBKDF2_SHA256 keyMaterial salt 100000 256 |} in
        try_catch
          (match AES_GCM_decrypt (key_material derivedKey) iv encryptedData with
           | None => throw OperationError
           | Some decrypted =>
               match JSON_parse (utf8_decode decrypted) with
               | Some parsed => ret parsed
               | None => throw SyntaxError
               end
           end)
          (fun _ => throw (JsError "Failed to decrypt keys. Wrong password?"))
      else if truthy (kd_privateKey keyData) && truthy (kd_publicKey keyData) then
        ret (pairData (kd_privateKey keyData) (kd_publicKey keyData))
      else
        throw (JsError "Invalid key file format")
  end.


(** The [updatedAt] of the cached manifest. *)
Definition updatedAtOf (w : World) : option Timestamp :=
  Manifest.updatedAt <$> manifestCache w.

(** * The mutation family

    The operations that change the manifest, with their arguments;
    [copyFilesToFolder] is taken without its optional progress callback. *)
Inductive Mutation :=
| AddFile (fileInfo : FileInfo.t)
| RemoveFile (fileId : string)
| RemoveFiles (fileIds : list string)
| RenameFile (fileId newName : string)
| ToggleFavorite (fileId : string)
| CreateFolder (name : string) (parentId color : option string)
| RenameFolder (folderId newName : string)
| DeleteFolder (folderId : string) (deleteContents : bool)
| MoveFile (fileId : string) (folderId : option string)
| MoveFiles (fileIds : list string) (folderId : option string)
| CopyFiles (fileIds : list string) (targetFolderId : option string).

Definition mutate (config : StorageConfig) (op : Mutation) : M unit :=
  match op with
  | AddFile fileInfo => addFileToManifest config fileInfo
  | RemoveFile fileId => removeFileFromManifest config fileId
  | RemoveFiles fileIds => removeFilesFromManifest config fileIds
  | RenameFile fileId newName => renameFile config fileId newName
  | ToggleFavorite fileId => toggleFileFavorite config fileId ;;; ret tt
  | CreateFolder name parentId color =>
      createFolder config name parentId color ;;; ret tt
  | RenameFolder folderId newName => renameFolder config folderId newName
  | DeleteFolder folderId deleteContents =>
      deleteFolder config folderId deleteContents ;;; ret tt
  | MoveFile fileId folderId => moveFileToFolder config fileId folderId
  | MoveFiles fileIds folderId => moveFilesToFolder config fileIds folderId
  | CopyFiles fileIds targetFolderId =>
      copyFilesToFolder config fileIds targetFolderId None ;;; ret tt
  end.

(** The outcome of opening a backup's ciphertext with a password: the AES-GCM
    opening under the PBKDF2 key, then the parse of the text. *)
Definition openBackup (password salt iv data : string) : option KeyData :=
  AES_GCM_decrypt
    (PBKDF2_SHA256 (utf8_encode password) (Hex.decode salt) 100000 256)
    (Hex.decode iv) (Hex.decode data)
  ≫= fun decrypted => JSON_parse (utf8_decode decrypted).

(** The two ways the refresh of [syncManifest] goes wrong: the fetch of the
    manifest blob fails, or the fetched bytes do not decrypt to a manifest. *)
Definition sync_fails (config : StorageConfig) (masterKey : CryptoKey) (w : World)
  : Prop :=
  (exists e w', downloadFromStorage config MANIFEST_KEY w = (Raise e, w')) \/
  (exists data w' e w'',
      downloadFromStorage config MANIFEST_KEY w = (Ok data, w') /\
      decryptManifest data masterKey w' = (Raise e, w'')).

End Engine.

(** * The rest of the manifest store, [src/lib/manifest.ts] *)

Section Store.

Context {crypto : WebCrypto} {JSON_Manifest : JSON Manifest.t}.

(** Lock manifest (clear from memory).  [clearNotesCache] belongs to the
    notes module, which is not among the sources: it is a parameter. *)
Definition lockManifest (clearNotesCache : M unit) : M unit :=
  modify (set_manifestCache None) ;;;
  modify (set_masterKeyCache None) ;;;
  (* Clear notes cache as well *)
  clearNotesCache ;;;
  modify (fun w =>
    match sessionStorage w with
    | Some s =>
        set_sessionStorage
          (Some (delete SESSION_UNLOCKED_KEY (delete SESSION_CACHE_KEY s))) w
    | None => w
    end).

(** Get favorite files *)
Definition getFavoriteFiles : M (list FileInfo.t) :=
  manifest <- getManifest ;;
  match manifest with
  | None => ret []
  | Some m =>
      ret (Array_sort (fun a b => FileInfo.uploadedAt b - FileInfo.uploadedAt a)
             (filter (fun f => FileInfo.isFavorite f = true) (Manifest.files m)))
  end.

(** Get all folders *)
Definition getFolders : M (list Folder.t) :=
  manifest <- getManifest ;;
  match manifest with
  | None => ret []
  | Some m => ret (Manifest.folders m)
  end.

(** Get folders in a specific parent folder *)
Definition getFoldersInFolder (parentId : option string) : M (list Folder.t) :=
  manifest <- getManifest ;;
  match manifest with
  | None => ret []
  | Some m => ret (filter (fun f => Folder.parentId f = parentId) (Manifest.folders m))
  end.

(** Get files in a specific folder *)
Definition getFilesInFolder (folderId : option string) : M (list FileInfo.t) :=
  manifest <- getManifest ;;
  match manifest with
  | None => ret []
  | Some m =>
      ret (Array_sort (fun a b => FileInfo.uploadedAt b - FileInfo.uploadedAt a)
             (filter (fun f => FileInfo.folderId f = folderId) (Manifest.files m)))
  end.

(** Get the cached master key (for use with notes system) *)
Definition getMasterKey : M (option CryptoKey) :=
  w <- get_world ;;
  ret (masterKeyCache w).

(** The stored form of a manifest: the nonce, then what AES-GCM gives for the
    UTF-8 bytes of the manifest's JSON text. *)
Definition sealedManifest (masterKey : CryptoKey) (iv : bytes) (m : Manifest.t)
  : bytes :=
  (iv ++ AES_GCM_encrypt (key_material masterKey) iv
           (utf8_encode (JSON_stringify 0 m)))%list.

(** The store under [config] holds the cached manifest, sealed under the
    cached key. *)
Definition in_sync (config : StorageConfig) (w : World) : Prop :=
  exists cache masterKey iv,
    manifestCache w = Some cache /\
    masterKeyCache w = Some masterKey /\
    length iv = 12%nat /\
    remote w config !! MANIFEST_KEY = Some (sealedManifest masterKey iv cache).

(** The state of a tab after a page reload: the module variables are gone,
    the session storage still says unlocked and holds the text of [m]. *)
Definition reloaded (m : Manifest.t) (w : World) : Prop :=
  manifestCache w = None /\
  masterKeyCache w = None /\
  exists s,
    sessionStorage w = Some s /\
    s !! SESSION_UNLOCKED_KEY = Some "true" /\
    s !! SESSION_CACHE_KEY = Some (JSON_stringify 0 m).

End Store.

(** * Keys and their local storage, [src/lib/crypto.ts] *)

(** [@noble/ed25519]: the public key of a private key, and the signature of
    a message ([None]: the library throws). *)
Class Ed25519 := {
  ed25519_getPublicKey : forall (privateKey : bytes), bytes;
  ed25519_sign : forall (message privateKey : bytes), option bytes
}.

Section Keys.

Context {ed25519 : Ed25519} {JSON_KeyData : JSON KeyData}.

Definition generateKeyPair : M (string * string) :=
  privateKeyBytes <- getRandomValues 32 ;;
  let publicKeyBytes := ed25519_getPublicKey privateKeyBytes in
  ret (Hex.encode privateKeyBytes, Hex.encode publicKeyBytes).

Definition signMessage (privateKey message : string) : M string :=
  try_catch
    (let privateKeyBytes := Hex.decode privateKey in
     let messageBytes := utf8_encode message in
     match ed25519_sign messageBytes privateKeyBytes with
     | Some signature => ret (Hex.encode signature)
     | None => throw TypeError
     end)
    (fun _ => throw (JsError "Failed to sign message")).

End Keys.

(** The browser's [localStorage]: its items, and whether the coming
    [setItem] exceeds the quota.  [None] is a context without a window, where
    naming [localStorage] throws. *)
Record LocalStorage := {
  items : gmap string string;
  full : bool
}.

Definition Browser := option LocalStorage.

(** [localStorage.setItem], [getItem] and [removeItem]; the outer [None] is a
    thrown exception. *)
Definition setItem (key value : string) (b : Browser) : option Browser :=
  match b with
  | Some ls =>
      if full ls then None
      else Some (Some {| items := <[key := value]> (items ls); full := full ls |})
  | None => None
  end.

Definition getItem (key : string) (b : Browser) : option (option string) :=
  match b with
  | Some ls => Some (items ls !! key)
  | None => None
  end.

Definition removeItem (key : string) (b : Browser) : option Browser :=
  match b with
  | Some ls => Some (Some {| items := delete key (items ls); full := full ls |})
  | None => None
  end.

Definition KEY_PAIR_PREFIX : string := "key_pair_".

Section KeyStorage.

Context {JSON_KeyData : JSON KeyData}.

(** Store keypair in localStorage; an exception is logged, not raised. *)
Definition storeKeyPair (userId privateKey publicKey : string) (b : Browser)
  : Browser :=
  let data := JSON_stringify 0 (pairData (Some privateKey) (Some publicKey)) in
  match setItem (KEY_PAIR_PREFIX ++ userId) data b with
  | Some b' => b'
  | None => b
  end.

(** Get keypair from localStorage; [null] is [None]. *)
Definition getKeyPair (userId : string) (b : Browser) : option KeyData :=
  match getItem (KEY_PAIR_PREFIX ++ userId) b with
  | Some (Some (String a r)) => JSON_parse (String a r)
  | _ => None
  end.

(** Get private key *)
Definition getPrivateKey (userId : string) (b : Browser) : option string :=
  match getKeyPair userId b with
  | Some keyPair =>
      if truthy (kd_privateKey keyPair) then kd_privateKey keyPair else None
  | None => None
  end.

(** Clear keypair; [None] is the exception of a context without a window. *)
Definition clearKeyPair (userId : string) (b : Browser) : option Browser :=
  removeItem (KEY_PAIR_PREFIX ++ userId) b.

End KeyStorage.

(** * The storage configuration, settings module *)

Definition STORAGE_CONFIG_KEY : string := "storage_config".

Section Settings.

Context {JSON_StorageConfig : JSON StorageConfig}.

(** Get storage configuration from localStorage *)
Definition getStorageConfig (b : Browser) : option StorageConfig :=
  match b with
  | None => None                           (* [typeof window === "undefined"] *)
  | Some _ =>
      match getItem STORAGE_CONFIG_KEY b with
      | Some (Some (String a r)) => JSON_parse (String a r)
      | _ => None
      end
  end.

(** Save storage configuration to localStorage *)
Definition saveStorageConfig (config : StorageConfig) (b : Browser) : Browser :=
  match b with
  | None => b
  | Some _ =>
      match setItem STORAGE_CONFIG_KEY (JSON_stringify 0 config) b with
      | Some b' => b'
      | None => b
      end
  end.

(** Clear storage configuration *)
Definition clearStorageConfig (b : Browser) : Browser :=
  match b with
  | None => b
  | Some _ =>
      match removeItem STORAGE_CONFIG_KEY b with
      | Some b' => b'
      | None => b
      end
  end.

(** Check if storage is configured *)
Definition isStorageConfigured (b : Browser) : bool :=
  match getStorageConfig b with
  | Some config =>
      truthy (Some (endpoint config)) && truthy (Some (bucket config))
      && truthy (Some (accessKeyId config)) && truthy (Some (secretAccessKey config))
  | None => false
  end.

End Settings.

(** * A small instance of the platform

    Executable stand-ins for [crypto.subtle] and [JSON], used to run the
    engine on concrete inputs.  The cipher seals by prefixing key and nonce,
    so that opening under another key or nonce fails like a tag check; the
    JSON text of a document is the binary numeral of its code. *)

Module Toy.

#[export] Instance byte_eq_dec : EqDecision Byte.byte.
Proof.
  refine (fun a b => match Byte.eqb a b as r return Byte.eqb a b = r -> _ with
                     | true => fun E => left (@Byte.byte_dec_bl a b E)
                     | false => fun E => right _
                     end eq_refl).
  intros ->. rewrite (@Byte.byte_dec_lb b b eq_refl) in E. discriminate E.
Defined.

Definition seal (key iv plaintext : bytes) : bytes :=
  (key ++ iv ++ plaintext)%list.

Definition unseal (key iv data : bytes) : option bytes :=
  let n := (length key + length iv)%nat in
  if decide (take n data = (key ++ iv)%list) then Some (drop n data) else None.

Definition stretch (material : bytes) (bits : N) : bytes :=
  let n := N.to_nat (bits / 8) in
  take n (material ++ repeat Byte.x00 n)%list.

Definition crypto : WebCrypto := {|
  HKDF_SHA256 := fun salt info ikm bits => stretch (ikm ++ info ++ salt)%list bits;
  PBKDF2_SHA256 := fun password salt iterations bits =>
                     stretch (password ++ salt)%list bits;
  AES_GCM_encrypt := seal;
  AES_GCM_decrypt := unseal
|}.

Fixpoint bits_of_pos (p : positive) : string :=
  match p with
  | xH => EmptyString
  | xO q => String "0" (bits_of_pos q)
  | xI q => String "1" (bits_of_pos q)
  end.

Fixpoint pos_of_bits (s : string) : option positive :=
  match s with
  | EmptyString => Some xH
  | String c r =>
      match pos_of_bits r with
      | Some q =>
          if Ascii.eqb c "0" then Some (xO q)
          else if Ascii.eqb c "1" then Some (xI q)
          else None
      | None => None
      end
  end.

Definition json (A : Type) `{Countable A} : JSON A := {|
  JSON_stringify := fun _ a => bits_of_pos (encode a);
  JSON_parse := fun text => pos_of_bits text ≫= decode
|}.

#[export] Instance KeyData_eq_dec : EqDecision KeyData.
Proof. solve_decision. Defined.
#[export] Instance KeyData_countable : Countable KeyData.
Proof.
  refine (inj_countable'
    (fun d => (kd_privateKey d, kd_publicKey d, kd_encrypted d,
               kd_salt d, kd_iv d, kd_data d))
    (fun '(a, b, c, d, e, f) => Build_KeyData a b c d e f) _).
  intros []. reflexivity.
Defined.

#[export] Instance FileInfo_eq_dec : EqDecision FileInfo.t.
Proof. solve_decision. Defined.
#[export] Instance FileInfo_countable : Countable FileInfo.t.
Proof.
  refine (inj_countable'
    (fun f => (FileInfo.fileId f, FileInfo.fileName f, FileInfo.fileSize f,
               FileInfo.mimeType f, FileInfo.folderId f, FileInfo.isFavorite f,
               FileInfo.uploadedAt f, FileInfo.encryptionKey f, FileInfo.nonce f))
    (fun '(a, b, c, d, e, f, g, h, i) => FileInfo.mk a b c d e f g h i) _).
  intros []. reflexivity.
Defined.

#[export] Instance Folder_eq_dec : EqDecision Folder.t.
Proof. solve_decision. Defined.
#[export] Instance Folder_countable : Countable Folder.t.
Proof.
  refine (inj_countable'
    (fun f => (Folder.id f, Folder.name f, Folder.parentId f,
               Folder.createdAt f, Folder.color f))
    (fun '(a, b, c, d, e) => Folder.mk a b c d e) _).
  intros []. reflexivity.
Defined.

#[export] Instance Manifest_eq_dec : EqDecision Manifest.t.
Proof. solve_decision. Defined.
#[export] Instance Manifest_countable : Countable Manifest.t.
Proof.
  refine (inj_countable'
    (fun m => (Manifest.version m, Manifest.files m, Manifest.folders m,
               Manifest.createdAt m, Manifest.updatedAt m))
    (fun '(a, b, c, d, e) => Manifest.mk a b c d e) _).
  intros []. reflexivity.
Defined.

Definition JSON_Manifest : JSON Manifest.t := json Manifest.t.
Definition JSON_KeyData : JSON KeyData := json KeyData.

(** A configuration, and a world with nothing cached, an empty store and an
    environment whose readings are given. *)
Definition config : StorageConfig := {|
  provider := r2; endpoint := "https://storage.example"; region := "auto";
  bucket := "vault"; accessKeyId := "id"; secretAccessKey := "secret";
  accountId := None
|}.

Definition world (faults : list bool) (clock : list Z) (uuids : list string) : World :=
  mkWorld None None (Some ∅) (fun _ => ∅)
          (fun n => nth n faults false)
          (fun n => nth n clock (1000 + Z.of_nat n))
          (fun n => nth n uuids "")
          (fun _ => Byte.x2a).

(** A manifest with a folder "Docs", its subfolder "Sub", a file in each and
    a file at the root. *)
Definition docs : Folder.t := Folder.mk "d1" "Docs" None 90 None.
Definition sub : Folder.t := Folder.mk "d2" "Sub" (Some "d1") 91 None.
Definition file_a : FileInfo.t :=
  FileInfo.mk "f1" "a.txt" 10 "text/plain" (Some "d1") false 95 "key-a" "nonce-a".
Definition file_b : FileInfo.t :=
  FileInfo.mk "f2" "b.png" 20 "image/png" (Some "d2") true 97 "key-b" "nonce-b".
Definition file_c : FileInfo.t :=
  FileInfo.mk "f3" "notes" 30 "text/plain" None false 96 "key-c" "nonce-c".

Definition manifest : Manifest.t := {|
  Manifest.version := 1;
  Manifest.files := [file_a; file_b; file_c];
  Manifest.folders := [docs; sub];
  Manifest.createdAt := 100;
  Manifest.updatedAt := 101
|}.

Definition masterKey : CryptoKey := {|
  key_algorithm := "AES-GCM"; key_bits := 256;
  key_material := stretch [Byte.x01; Byte.x02] 256
|}.

Definition blob_a : bytes := [Byte.xde; Byte.xad; Byte.xbe; Byte.xef].

(** The unlocked state: the manifest and the key cached, the blob of
    [file_a] in the store. *)
Definition unlocked (faults : list bool) (clock : list Z) (uuids : list string)
  : World :=
  mkWorld (Some manifest) (Some masterKey) (Some ∅)
          (fun _ => {[ "files/f1" := blob_a ]})
          (fun n => nth n faults false)
          (fun n => nth n clock (1000 + Z.of_nat n))
          (fun n => nth n uuids "")
          (fun _ => Byte.x2a).

(** A backup of a key pair, exported under the password "pw". *)
Definition privateKey : string := "6f1d2c3b4a596877162534435261708f".
Definition publicKey : string := "00112233445566778899aabbccddeeff".

Definition backup : string :=
  match fst (exportKeyPair (crypto := crypto) (JSON_KeyData := JSON_KeyData)
                           privateKey publicKey (Some "pw") (world [] [] [])) with
  | Ok text => text
  | Raise _ => ""
  end.

Definition backupData : KeyData := {|
  kd_privateKey := None; kd_publicKey := None; kd_encrypted := Some true;
  kd_salt := Some (Hex.encode (repeat Byte.x2a 16));
  kd_iv := Some (Hex.encode (repeat Byte.x2a 12));
  kd_data :=
    Some (Hex.encode
            (seal (stretch (utf8_encode "pw" ++ repeat Byte.x2a 16)%list 256)
                  (repeat Byte.x2a 12)
                  (utf8_encode
                     (JSON_stringify (JSON := JSON_KeyData) 0
                        (pairData (Some privateKey) (Some publicKey))))))
|}.

(** A signature library: the public key is the private key reversed, and a
    signature, made with a 32-byte key only, is the key before the message. *)
Definition ed25519 : Ed25519 := {|
  ed25519_getPublicKey := fun privateKey => rev privateKey;
  ed25519_sign := fun message privateKey =>
    if decide (length privateKey = 32%nat) then Some (privateKey ++ message)%list
    else None
|}.

#[export] Instance Provider_countable : Countable Provider.
Proof.
  refine (inj_countable'
    (fun p => match p with s3 => 0%nat | r2 => 1%nat | custom => 2%nat end)
    (fun n => match n with O => s3 | S O => r2 | _ => custom end) _).
  intros []; reflexivity.
Defined.

#[export] Instance StorageConfig_countable : Countable StorageConfig.
Proof.
  refine (inj_countable'
    (fun c => (provider c, endpoint c, region c, bucket c, accessKeyId c,
               secretAccessKey c, accountId c))
    (fun '(a, b, c, d, e, f, g) => Build_StorageConfig a b c d e f g) _).
  intros []. reflexivity.
Defined.

Definition JSON_StorageConfig : JSON StorageConfig := json StorageConfig.

(** A browser with an empty local storage that takes writes. *)
Definition browser : LocalStorage := {| items := ∅; full := false |}.

(** The key that [privateKey] derives, and a 12-byte nonce. *)
Definition derivedKey : CryptoKey := {|
  key_algorithm := "AES-GCM"; key_bits := 256;
  key_material :=
    HKDF_SHA256 (WebCrypto := crypto) (repeat Byte.x00 16)
                (utf8_encode "manifest-encryption") (Hex.decode privateKey) 256
|}.

Definition iv12 : bytes := repeat Byte.x2a 12.

(** A new tab, nothing cached, facing a store that holds [manifest] sealed
    for [privateKey]. *)
Definition stored : World :=
  mkWorld None None (Some ∅)
          (fun _ => {[ MANIFEST_KEY :=
                         sealedManifest (crypto := crypto) (JSON_Manifest := JSON_Manifest)
                                        derivedKey iv12 manifest ]})
          (fun _ => false) (fun n => 1000 + Z.of_nat n) (fun _ => "")
          (fun _ => Byte.x2a).

(** An unlocked tab whose cached manifest is behind the store: another tab
    has removed two files and uploaded. *)
Definition newer : Manifest.t :=
  Manifest.with_updatedAt 500 (Manifest.with_files [file_c] manifest).

Definition behind : World :=
  mkWorld (Some manifest) (Some masterKey) (Some ∅)
          (fun _ => {[ MANIFEST_KEY :=
                         sealedManifest (crypto := crypto) (JSON_Manifest := JSON_Manifest)
                                        masterKey iv12 newer ]})
          (fun _ => false) (fun n => 1000 + Z.of_nat n) (fun _ => "")
          (fun _ => Byte.x2a).

(** A tab after a page reload. *)
Definition reloaded_tab : World :=
  mkWorld None None
          (Some (<[SESSION_UNLOCKED_KEY := "true"]>
                   {[ SESSION_CACHE_KEY :=
                        JSON_stringify (JSON := JSON_Manifest) 0 manifest ]}))
          (fun _ => ∅)
          (fun _ => false) (fun n => 1000 + Z.of_nat n) (fun _ => "")
          (fun _ => Byte.x2a).

End Toy.

(** * Properties *)

(** ** Hex and UTF-8 text *)

Lemma hex_digits_of_byte (x : Byte.byte) :
  Hex.value (Hex.digit (Byte.to_N x / 16)) = Some (Byte.to_N x / 16)%N /\
  Hex.value (Hex.digit (Byte.to_N x mod 16)) = Some (Byte.to_N x mod 16)%N.
Proof. destruct x; split; reflexivity. Qed.

Lemma hex_decode_pairs_encode (b : bytes) (fuel : nat) :
  (2 * length b <= fuel)%nat ->
  Hex.decode_pairs fuel (Hex.encode b) = b.
Proof.
  revert fuel. induction b as [|x r IH]; intros fuel Hfuel.
  - destruct fuel; reflexivity.
  - destruct fuel as [|fuel]; [simpl in Hfuel; lia|].
    cbn [Hex.encode Hex.decode_pairs].
    destruct (hex_digits_of_byte x) as [-> ->].
    replace (16 * (Byte.to_N x / 16) + Byte.to_N x mod 16)%N with (Byte.to_N x)
      by (rewrite (N.div_mod (Byte.to_N x) 16) at 1; lia).
    rewrite Byte.of_to_N. f_equal. apply IH. simpl in Hfuel. lia.
Qed.

Lemma hex_encode_length (b : bytes) :
  String.length (Hex.encode b) = (2 * length b)%nat.
Proof. induction b as [|x r IH]; simpl; [reflexivity|]. rewrite IH. lia. Qed.

Lemma hex_decode_encode (b : bytes) : Hex.decode (Hex.encode b) = b.
Proof.
  unfold Hex.decode. apply hex_decode_pairs_encode.
  rewrite hex_encode_length. lia.
Qed.

Lemma utf8_decode_encode (s : string) : utf8_decode (utf8_encode s) = s.
Proof. apply string_of_list_byte_of_string. Qed.

(** ** [Array.prototype.sort] *)

Section Sorting.
Context {A : Type} (cmp : A -> A -> Z).

Lemma sort_insert_perm (x : A) (l : list A) : sort_insert cmp x l ≡ₚ x :: l.
Proof.
  induction l as [|y r IH]; simpl; [reflexivity|].
  destruct (cmp x y <=? 0); [reflexivity|].
  rewrite IH. apply perm_swap.
Qed.

Lemma Array_sort_perm (l : list A) : Array_sort cmp l ≡ₚ l.
Proof.
  induction l as [|x r IH]; simpl; [reflexivity|].
  rewrite sort_insert_perm. by rewrite IH.
Qed.
End Sorting.

Section SortingByKey.
Context {A : Type} (key : A -> Z).

(** The comparator [(a, b) => key(b) - key(a)] and the order it sorts by:
    larger keys first. *)
Let cmp : A -> A -> Z := fun a b => key b - key a.
Let before : A -> A -> Prop := fun a b => key b <= key a.

Lemma sort_insert_sorted (x : A) (l : list A) :
  StronglySorted before l -> StronglySorted before (sort_insert cmp x l).
Proof.
  induction 1 as [|y r Hr IH Hy]; simpl.
  - repeat constructor.
  - destruct (Z.leb_spec (cmp x y) 0) as [Hle|Hgt]; unfold cmp in *.
    + constructor; [by constructor|].
      constructor; [unfold before; lia|].
      eapply Forall_impl; [|exact Hy]. unfold before. intros; lia.
    + constructor; [exact IH|].
      pose proof (sort_insert_perm cmp x r) as Hp. unfold cmp in Hp. rewrite Hp.
      constructor; [unfold before; lia | exact Hy].
Qed.

Lemma Array_sort_sorted (l : list A) : StronglySorted before (Array_sort cmp l).
Proof.
  induction l as [|x r IH]; simpl; [constructor|].
  by apply sort_insert_sorted.
Qed.
End SortingByKey.

Section Properties.

Context {crypto : WebCrypto} {JSON_Manifest : JSON Manifest.t}
        {JSON_KeyData : JSON KeyData}.

(** ** Reading the manifest *)

(** C10: with a manifest cached, [getFilesFromManifest] returns the file
    entries of the manifest, rearranged so that later upload times come
    first, and leaves the whole state, so the cached manifest and the order
    of its files, as it was. *)
Theorem getFilesFromManifest_sorted_fresh (w : World) (m : Manifest.t) :
  manifestCache w = Some m ->
  exists sorted,
    getFilesFromManifest w = (Ok sorted, w) /\
    sorted ≡ₚ Manifest.files m /\
    StronglySorted (fun a b => FileInfo.uploadedAt b <= FileInfo.uploadedAt a) sorted /\
    manifestCache w = Some m.
Proof.
  intros Hm. eexists. split; [|split; [|split]].
  - unfold getFilesFromManifest, getManifest, bind, get_world, ret.
    rewrite Hm. reflexivity.
  - apply Array_sort_perm.
  - apply (Array_sort_sorted FileInfo.uploadedAt).
  - exact Hm.
Qed.

(** ** Deriving the master key *)

(** C7: the derived key is the same in every state of the world, whatever the
    coming random bytes, clock readings and cached values are; it is the
    256-bit AES-GCM key that HKDF-SHA-256 gives for the private key bytes
    under the salt of sixteen zero bytes and the fixed context string; and
    deriving it changes nothing. *)
Theorem deriveManifestKey_deterministic (K : string) (w1 w2 : World) :
  fst (deriveManifestKeyFromPrivateKey K w1) = fst (deriveManifestKeyFromPrivateKey K w2) /\
  deriveManifestKeyFromPrivateKey K w1 =
    (Ok {| key_algorithm := "AES-GCM"; key_bits := 256;
           key_material :=
             HKDF_SHA256 (repeat Byte.x00 16) (utf8_encode "manifest-encryption")
                         (Hex.decode K) 256 |}, w1).
Proof. split; reflexivity. Qed.

(** ** Running the monad *)

Ltac run :=
  cbv [bind ret throw try_catch get_world modify new_Date randomUUID
       getRandomValues next_fault downloadFromStorage uploadToStorage
       requireUnlocked encryptManifest saveToSessionCache pushFile];
  cbn [manifestCache masterKeyCache sessionStorage remote faults clock uuids
       entropy set_manifestCache set_masterKeyCache set_sessionStorage
       set_remote set_faults set_clock set_uuids set_entropy fst snd].

Lemma filter_absent_id (fileId : string) (l : list FileInfo.t) :
  fileId ∉ map FileInfo.fileId l ->
  filter (fun f => FileInfo.fileId f <> fileId) l = l.
Proof.
  induction l as [|f r IH]; intros Hnot; [reflexivity|].
  rewrite filter_cons_True.
  - f_equal. apply IH. intros Hin. apply Hnot. by right.
  - intros Heq. apply Hnot. rewrite <- Heq. by left.
Qed.

(** The tail of every mutator touches neither the caches nor the clock; it
    fails with the transport's error only, and when the transport works it
    leaves the sealed manifest under the manifest key. *)
Lemma sealAndUpload_cases (config : StorageConfig)
    (cache : Manifest.t) (masterKey : CryptoKey) (w : World) :
  exists r w',
    sealAndUpload config cache masterKey w = (r, w') /\
    (r = Ok tt \/ r = Raise TransportError) /\
    manifestCache w' = manifestCache w /\
    masterKeyCache w' = masterKeyCache w /\
    clock w' = clock w /\
    uuids w' = uuids w.
Proof.
  unfold sealAndUpload. run.
  destruct (faults w 0%nat); cbn; [eauto 10|].
  destruct (sessionStorage w); eauto 10.
Qed.

Lemma sealAndUpload_ok (config : StorageConfig)
    (cache : Manifest.t) (masterKey : CryptoKey) (w : World) :
  faults w 0%nat = false ->
  exists w',
    sealAndUpload config cache masterKey w = (Ok tt, w') /\
    manifestCache w' = manifestCache w /\
    masterKeyCache w' = masterKeyCache w /\
    clock w' = clock w /\
    uuids w' = uuids w /\
    faults w' = rest 1 (faults w) /\
    (exists blob, fst (encryptManifest cache masterKey w) = Ok blob /\
                  remote w' config !! MANIFEST_KEY = Some blob) /\
    (forall key, key <> MANIFEST_KEY -> remote w' config !! key = remote w config !! key).
Proof.
  intros Hf. unfold sealAndUpload. run. rewrite Hf. cbn.
  destruct (sessionStorage w); cbn;
    eexists; (split; [reflexivity|]); cbn; rewrite decide_True by reflexivity;
    rewrite lookup_insert_eq;
    repeat split; eauto; intros key Hkey; by rewrite lookup_insert_ne.
Qed.

(** ** Synchronising *)

(** C1, as the code has it: with a master key cached, a refresh that fails at
    the fetch or at the decryption does not raise; it returns [null], not
    the manifest known before, and leaves the cached manifest, the cached
    key and the session storage as they were. *)
Theorem syncManifest_soft_fail (config : StorageConfig) (masterKey : CryptoKey)
    (w : World) :
  masterKeyCache w = Some masterKey ->
  sync_fails config masterKey w ->
  exists w',
    syncManifest config w = (Ok None, w') /\
    manifestCache w' = manifestCache w /\
    masterKeyCache w' = masterKeyCache w /\
    sessionStorage w' = sessionStorage w.
Proof.
  intros Hk Hfail. unfold syncManifest.
  unfold bind at 1. unfold get_world at 1. rewrite Hk.
  unfold try_catch. unfold bind at 1.
  destruct Hfail as [(e & w1 & Hd) | (data & w1 & e & w2 & Hd & Hdec)].
  - rewrite Hd. eexists; split; [reflexivity|].
    revert Hd. run.
    destruct (faults w 0%nat); cbn;
      [|destruct (remote w config !! MANIFEST_KEY); cbn];
      intros [= <- <-] || intros [= <-]; auto.
  - rewrite Hd. unfold bind at 1. rewrite Hdec.
    eexists; split; [reflexivity|].
    revert Hd Hdec. run. unfold decryptManifest.
    destruct (faults w 0%nat); cbn; [discriminate|].
    destruct (remote w config !! MANIFEST_KEY); cbn; [|discriminate].
    intros [= <- <-].
    destruct (AES_GCM_decrypt _ _ _); [destruct (JSON_parse _)|];
      cbv [ret throw]; intros [= <- <-] || intros [= <-] || discriminate; auto.
Qed.

(** ** Removing a file *)


(** ** Deleting a folder *)

(** Moving a file to the root, as [deleteFolder] does for the members of the
    folder it deletes. *)
Lemma list_find_fileId_map (g : FileInfo.t -> FileInfo.t) (fileId : string)
    (l : list FileInfo.t) :
  (forall f, FileInfo.fileId (g f) = FileInfo.fileId f) ->
  list_find (fun f => FileInfo.fileId f = fileId) (map g l) =
  prod_map id g <$> list_find (fun f => FileInfo.fileId f = fileId) l.
Proof.
  intros Hg. induction l as [|f r IH]; [reflexivity|].
  cbn [map list_find]. rewrite Hg.
  destruct (decide (FileInfo.fileId f = fileId)); [reflexivity|].
  rewrite IH. by destruct (list_find _ r) as [[? ?]|].
Qed.

Lemma list_find_unique_id (e : FileInfo.t) (l : list FileInfo.t) :
  NoDup (map FileInfo.fileId l) -> e ∈ l ->
  exists i, list_find (fun f => FileInfo.fileId f = FileInfo.fileId e) l = Some (i, e).
Proof.
  induction l as [|f r IH]; intros Hnd Hin.
  - by apply elem_of_nil in Hin.
  - cbn [map] in Hnd. apply list.NoDup_cons in Hnd as [Hf Hr].
    apply elem_of_cons in Hin as [->|Hin].
    + exists 0%nat. cbn. by rewrite decide_True.
    + destruct (IH Hr Hin) as [i Hi]. exists (S i). cbn.
      rewrite decide_False.
      * by rewrite Hi.
      * intros Heq. apply Hf. rewrite Heq. by apply list_elem_of_fmap_2.
Qed.

Lemma list_find_member_id (e : FileInfo.t) (l : list FileInfo.t) :
  e ∈ l ->
  exists i e', list_find (fun f => FileInfo.fileId f = FileInfo.fileId e) l = Some (i, e')
               /\ FileInfo.fileId e' = FileInfo.fileId e /\ e' ∈ l.
Proof.
  intros Hin.
  destruct (list_find_elem_of (fun f => FileInfo.fileId f = FileInfo.fileId e) l e Hin eq_refl)
    as [[i e'] Hfind].
  exists i, e'. split; [exact Hfind|].
  apply list_find_Some in Hfind as (Hl & He' & _). split; [exact He'|].
  by eapply list_elem_of_lookup_2.
Qed.

(** C5: deleting folder [F] without its contents takes [F] out of the folder
    list and moves every file of [F] to the root; no file entry is dropped,
    and each former member is still found by its file id, now at the root.
    The call ends well when the upload does. *)
Theorem deleteFolder_keeps_files (config : StorageConfig) (F : string)
    (w : World) (m : Manifest.t) (masterKey : CryptoKey) :
  manifestCache w = Some m ->
  masterKeyCache w = Some masterKey ->
  let w' := snd (deleteFolder config F false w) in
  exists m',
    manifestCache w' = Some m' /\
    (faults w 0%nat = false -> fst (deleteFolder config F false w) = Ok []) /\
    Manifest.folders m' = filter (fun g => Folder.id g <> F) (Manifest.folders m) /\
    (forall g, g ∈ Manifest.folders m' -> Folder.id g <> F) /\
    Manifest.files m' =
      map (fun f => if decide (FileInfo.folderId f = Some F)
                    then FileInfo.with_folderId None f else f) (Manifest.files m) /\
    length (Manifest.files m') = length (Manifest.files m) /\
    (forall e, e ∈ Manifest.files m -> FileInfo.folderId e = Some F ->
       FileInfo.with_folderId None e ∈ Manifest.files m' /\
       exists e',
         fst (getFileFromManifest (FileInfo.fileId e) w') = Ok (Some e') /\
         FileInfo.fileId e' = FileInfo.fileId e /\
         FileInfo.folderId e' <> Some F /\
         (NoDup (map FileInfo.fileId (Manifest.files m)) ->
          e' = FileInfo.with_folderId None e)).
Proof.
  intros Hm Hk.
  set (toRoot := fun f => if decide (FileInfo.folderId f = Some F)
                          then FileInfo.with_folderId None f else f).
  assert (HtoRoot_id : forall f, FileInfo.fileId (toRoot f) = FileInfo.fileId f).
  { intros f. unfold toRoot. by destruct (decide _). }
  assert (HtoRoot_out : forall f, FileInfo.folderId (toRoot f) <> Some F).
  { intros f. unfold toRoot. by destruct (decide _). }
  unfold deleteFolder. run. rewrite Hm, Hk. cbn [negb].
  match goal with
  | |- context [sealAndUpload config ?c masterKey ?w1] =>
      destruct (sealAndUpload_cases config c masterKey w1)
        as (r & w' & Hs & Hr & Hcache & _);
      pose proof (sealAndUpload_ok config c masterKey w1) as Hok;
      rewrite Hs in *; cbn in Hcache, Hok
  end.
  assert (Hw' : forall A (x : A) (k : Error -> Result A),
            snd (match r with Ok _ => (Ok x, w') | Raise e0 => (k e0, w') end) = w')
    by (intros; by destruct r).
  cbv zeta. rewrite Hw'.
  eexists. split; [exact Hcache|].
  split.
  { intros Hf. destruct (Hok Hf) as (w'' & [= -> _] & _). reflexivity. }
  cbn [Manifest.folders Manifest.files Manifest.with_files Manifest.with_folders
       Manifest.with_updatedAt].
  split; [reflexivity|].
  split; [intros g Hg; by apply list_elem_of_filter in Hg as [? _]|].
  split; [reflexivity|].
  split; [by rewrite length_map|].
  intros e He HeF. split.
  { replace (FileInfo.with_folderId None e) with (toRoot e)
      by (unfold toRoot; by rewrite decide_True).
    by apply list_elem_of_fmap_2. }
  unfold getFileFromManifest, getManifest. run. rewrite Hcache.
  cbn [Manifest.files Manifest.with_files Manifest.with_folders Manifest.with_updatedAt].
  fold toRoot. rewrite (list_find_fileId_map toRoot _ _ HtoRoot_id).
  destruct (list_find_member_id e _ He) as (i & e' & Hfind & Hid & Hin).
  rewrite Hfind. cbn. exists (toRoot e'). split; [reflexivity|].
  split; [by rewrite HtoRoot_id|]. split; [apply HtoRoot_out|].
  intros Hnd. destruct (list_find_unique_id e _ Hnd He) as [j Hj].
  rewrite Hj in Hfind. injection Hfind as _ <-.
  unfold toRoot. by rewrite decide_True.
Qed.

(** C9: [deleteFolder] looks one level deep only.  Whatever the flag, it
    removes from the folder list exactly the folders whose id is [F]; a
    folder with another id stays as it is, so a subfolder of [F] keeps a
    [parentId] that no remaining folder answers to.  A file whose [folderId]
    is not [F] stays as it is too, the files of those subfolders among them. *)
Theorem deleteFolder_not_recursive (config : StorageConfig) (F : string)
    (deleteContents : bool) (w : World) (m : Manifest.t) (masterKey : CryptoKey) :
  manifestCache w = Some m ->
  masterKeyCache w = Some masterKey ->
  exists m',
    manifestCache (snd (deleteFolder config F deleteContents w)) = Some m' /\
    Manifest.folders m' = filter (fun g => Folder.id g <> F) (Manifest.folders m) /\
    (forall g, g ∈ Manifest.folders m -> Folder.id g <> F -> g ∈ Manifest.folders m') /\
    (forall g, g ∈ Manifest.folders m' -> Folder.parentId g = Some F ->
       g ∈ Manifest.folders m /\
       ~ exists parent, parent ∈ Manifest.folders m' /\ Folder.id parent = F) /\
    Manifest.files m' =
      (if deleteContents
       then filter (fun f => FileInfo.folderId f <> Some F) (Manifest.files m)
       else map (fun f => if decide (FileInfo.folderId f = Some F)
                          then FileInfo.with_folderId None f else f)
                (Manifest.files m)) /\
    (forall e, e ∈ Manifest.files m -> FileInfo.folderId e <> Some F ->
       e ∈ Manifest.files m') /\
    (forall g e, g ∈ Manifest.folders m -> Folder.parentId g = Some F ->
       Folder.id g <> F ->
       e ∈ Manifest.files m -> FileInfo.folderId e = Some (Folder.id g) ->
       e ∈ Manifest.files m').
Proof.
  intros Hm Hk.
  unfold deleteFolder. run. rewrite Hm, Hk.
  match goal with
  | |- context [sealAndUpload config ?c masterKey ?w1] =>
      destruct (sealAndUpload_cases config c masterKey w1)
        as (r & w' & Hs & Hr & Hcache & _); rewrite Hs; cbn in Hcache
  end.
  eexists. split.
  { destruct Hr as [-> | ->]; cbn; exact Hcache. }
  cbn [Manifest.folders Manifest.files Manifest.with_files Manifest.with_folders
       Manifest.with_updatedAt].
  assert (Hkeep : forall e, e ∈ Manifest.files m -> FileInfo.folderId e <> Some F ->
            e ∈ Manifest.files
                  (if deleteContents
                   then Manifest.with_files
                          (filter (fun f => FileInfo.folderId f <> Some F)
                                  (Manifest.files m)) m
                   else Manifest.with_files
                          (map (fun f => if decide (FileInfo.folderId f = Some F)
                                         then FileInfo.with_folderId None f else f)
                               (Manifest.files m)) m)).
  { intros e He Hne. destruct deleteContents; cbn.
    - by apply list_elem_of_filter.
    - apply list_elem_of_fmap. exists e. split; [|exact He].
      by rewrite decide_False. }
  split; [by destruct deleteContents|].
  split; [intros g Hg Hne; destruct deleteContents; by apply list_elem_of_filter|].
  split.
  { intros g Hg Hparent.
    assert (Hg' : g ∈ filter (fun g => Folder.id g <> F) (Manifest.folders m))
      by (by destruct deleteContents).
    apply list_elem_of_filter in Hg' as [_ Hin]. split; [exact Hin|].
    intros (parent & Hp & Hid).
    assert (Hp' : parent ∈ filter (fun g => Folder.id g <> F) (Manifest.folders m))
      by (by destruct deleteContents).
    by apply list_elem_of_filter in Hp' as [Hne _]. }
  split; [by destruct deleteContents|].
  split; [exact Hkeep|].
  intros g e Hg Hparent Hne He Hin. apply Hkeep; [exact He|].
  rewrite Hin. intros [= Heq]. by apply Hne.
Qed.

(** ** [updatedAt] across mutations *)

(** One round of the copy loop, run without a progress callback, keeps a
    manifest cached, with the [updatedAt] it had, keeps the cached key, and
    only moves the clock on; the ids it returns extend the ids it was given,
    and when it adds none the cached manifest is the one before. *)
Lemma copyEach_invariant (config : StorageConfig) (targetFolderId : option string)
    (total : nat) (fileIds : list string) :
  forall (w : World) (acc : list string) (copied : nat) (m : Manifest.t)
         (r : Result (list string)) (w' : World),
    manifestCache w = Some m ->
    copyEach config fileIds targetFolderId None total acc copied w = (r, w') ->
    exists m' j,
      manifestCache w' = Some m' /\
      Manifest.updatedAt m' = Manifest.updatedAt m /\
      masterKeyCache w' = masterKeyCache w /\
      (forall i, clock w' i = clock w (j + i)%nat) /\
      (forall ids, r = Ok ids ->
         exists new, ids = (acc ++ new)%list /\ (new = [] -> m' = m)).
Proof.
  induction fileIds as [|fileId others IH]; intros w acc copied m r w' Hm Hrun.
  - cbn in Hrun. injection Hrun as <- <-.
    exists m, 0%nat. repeat split; auto.
    intros ids [= <-]. exists []. by rewrite app_nil_r.
  - cbn [copyEach] in Hrun. revert Hrun. run. rewrite Hm.
    destruct (list_find _ (Manifest.files m)) as [[i original]|].
    2:{ intros Hrun. exact (IH _ _ _ _ _ _ Hm Hrun). }
    destruct (faults w 0%nat); cbn.
    { intros [= <- <-]. exists m, 0%nat. repeat split; auto. discriminate. }
    destruct (remote w config !! _) as [data|]; cbn.
    2:{ intros [= <- <-]. exists m, 0%nat. repeat split; auto. discriminate. }
    destruct (rest 1 (faults w) 0%nat); cbn.
    { intros [= <- <-]. exists m, 0%nat. repeat split; auto. discriminate. }
    rewrite Hm. cbn. intros Hrun.
    match type of Hrun with
    | copyEach _ _ _ _ _ _ _ ?w1 = _ =>
        destruct (IH w1 _ _ _ _ _ eq_refl Hrun) as (m' & j & Hc & Hu & Hk & Hclock & Hids)
    end.
    cbn in Hu, Hk, Hclock.
    exists m', (S j). repeat split; auto.
    intros ids Hr. destruct (Hids ids Hr) as (new & -> & _).
    eexists (_ :: new). rewrite <- app_assoc. split; [reflexivity|discriminate].
Qed.

(** A copy that reports new ids has stamped the manifest with a reading of
    the clock; one that reports none has left the cached manifest alone. *)
Lemma copyFilesToFolder_updatedAt (config : StorageConfig) (fileIds : list string)
    (targetFolderId : option string) (w w' : World) (m : Manifest.t)
    (masterKey : CryptoKey) (newFileIds : list string) :
  manifestCache w = Some m ->
  masterKeyCache w = Some masterKey ->
  copyFilesToFolder config fileIds targetFolderId None w = (Ok newFileIds, w') ->
  exists m',
    manifestCache w' = Some m' /\
    ((newFileIds <> [] /\ exists n, Manifest.updatedAt m' = clock w n) \/
     (newFileIds = [] /\ m' = m)).
Proof.
  intros Hm Hk. unfold copyFilesToFolder.
  unfold bind at 1. unfold requireUnlocked at 1. run. rewrite Hm, Hk.
  destruct (copyEach config fileIds targetFolderId None (length fileIds) [] 0%nat w)
    as [r w1] eqn:Hloop.
  destruct (copyEach_invariant _ _ _ _ _ _ _ _ _ _ Hm Hloop)
    as (m1 & j & Hc1 & Hu1 & Hk1 & Hclock & Hids).
  destruct r as [ids|e]; [|discriminate].
  destruct (Hids ids eq_refl) as (new & Hnew & Hsame). cbn in Hnew. subst new.
  destruct ids as [|newId ids].
  - intros [= <- <-]. exists m1. split; [exact Hc1|]. right. auto.
  - rewrite Hc1, Hk1, Hk.
    match goal with
    | |- context [sealAndUpload config ?c masterKey ?w2] =>
        destruct (sealAndUpload_cases config c masterKey w2)
          as (r & w3 & Hs & Hr & Hcache & _); rewrite Hs; cbn in Hcache
    end.
    destruct Hr as [-> | ->]; [|discriminate].
    intros [= <- <-]. eexists. split; [exact Hcache|]. left.
    split; [discriminate|]. exists (j + 0)%nat. cbn. apply Hclock.
Qed.

Ltac stamped Hm Hk :=
  run; rewrite Hm, Hk;
  try match goal with
      | |- context [list_find ?P ?l] =>
          destruct (list_find P l) as [[? ?]|]; [|discriminate]
      end;
  match goal with
  | |- context [sealAndUpload ?config ?c ?k ?w1] =>
      let r := fresh "r" in
      let Hs := fresh "Hs" in
      let Hr := fresh "Hr" in
      let Hcache := fresh "Hcache" in
      destruct (sealAndUpload_cases config c k w1)
        as (r & ? & Hs & Hr & Hcache & _);
      rewrite Hs; cbn in Hcache;
      destruct Hr as [-> | ->]; [|discriminate];
      intros [= <-]; eexists; split; [exact Hcache|]; left
  end.

(** C3, as the code has it: a mutation that ends well leaves a manifest
    cached whose [updatedAt] is a reading of the clock taken during the
    call, except a copy that copied nothing, which leaves the manifest as it
    was.  So, when the clock's coming readings are all later than the
    [updatedAt] before, [updatedAt] is strictly greater after every such
    mutation but the copy of nothing. *)
Theorem mutate_updatedAt (config : StorageConfig) (op : Mutation)
    (w w' : World) (m : Manifest.t) (masterKey : CryptoKey) :
  manifestCache w = Some m ->
  masterKeyCache w = Some masterKey ->
  mutate config op w = (Ok tt, w') ->
  exists m',
    manifestCache w' = Some m' /\
    ((exists n, Manifest.updatedAt m' = clock w n) \/
     (exists fileIds targetFolderId,
        op = CopyFiles fileIds targetFolderId /\
        copyFilesToFolder config fileIds targetFolderId None w = (Ok [], w') /\
        m' = m)) /\
    ((forall n, Manifest.updatedAt m < clock w n) ->
     Manifest.updatedAt m < Manifest.updatedAt m' \/
     (exists fileIds targetFolderId,
        op = CopyFiles fileIds targetFolderId /\
        copyFilesToFolder config fileIds targetFolderId None w = (Ok [], w') /\
        Manifest.updatedAt m' = Manifest.updatedAt m)).
Proof.
  intros Hm Hk Hrun.
  cut (exists m', manifestCache w' = Some m' /\
         ((exists n, Manifest.updatedAt m' = clock w n) \/
          (exists fileIds targetFolderId,
             op = CopyFiles fileIds targetFolderId /\
             copyFilesToFolder config fileIds targetFolderId None w = (Ok [], w') /\
             m' = m))).
  { intros (m' & Hc & Hcases). exists m'. split; [exact Hc|]. split; [exact Hcases|].
    intros Hlater. destruct Hcases as [[n Hn] | (ids & t & Hop & Hcopy & Hsame)].
    - left. rewrite Hn. apply Hlater.
    - right. exists ids, t. by rewrite Hsame. }
  revert Hrun. destruct op; cbn [mutate].
  - unfold addFileToManifest. stamped Hm Hk. by exists 0%nat.
  - unfold removeFileFromManifest. stamped Hm Hk. by exists 0%nat.
  - unfold removeFilesFromManifest. stamped Hm Hk. by exists 0%nat.
  - unfold renameFile. stamped Hm Hk. by exists 0%nat.
  - unfold toggleFileFavorite. stamped Hm Hk. by exists 0%nat.
  - unfold createFolder. stamped Hm Hk. by exists 1%nat.
  - unfold renameFolder. stamped Hm Hk. by exists 0%nat.
  - unfold deleteFolder. stamped Hm Hk. by exists 0%nat.
  - unfold moveFileToFolder. stamped Hm Hk. by exists 0%nat.
  - unfold moveFilesToFolder. stamped Hm Hk. by exists 0%nat.
  - unfold bind at 1.
    destruct (copyFilesToFolder config fileIds targetFolderId None w)
      as [[ids|e] w1] eqn:Hcopy; [|discriminate].
    cbv [ret]. intros [= <-].
    destruct (copyFilesToFolder_updatedAt _ _ _ _ _ _ _ _ Hm Hk Hcopy)
      as (m' & Hc & [[_ Hn] | [Hids Hsame]]); exists m'; (split; [exact Hc|]).
    + by left.
    + right. subst ids. eauto.
Qed.

(** ** Copying files *)



(** ** The key backup *)

(** C2, as the code has it: the import fails with the wrong-password error
    exactly when the document is marked encrypted, a non-empty password is
    given, the salt, nonce and ciphertext are there, and the ciphertext does
    not open under the password's key (or opens to text that is no JSON).
    A document marked encrypted that comes with no password is read as a
    plain one: without plain keys in it, the import fails with the
    invalid-format error. *)
Theorem importKeyPair_wrong_password_iff (blob : string) (password : option string)
    (keyData : KeyData) (w : World) :
  JSON_parse blob = Some keyData ->
  (fst (importKeyPair blob password w)
     = Raise (JsError "Failed to decrypt keys. Wrong password?")
   <-> truthy_flag (kd_encrypted keyData) = true /\
       exists pw salt iv data,
         password = Some pw /\ pw <> "" /\
         kd_salt keyData = Some salt /\ kd_iv keyData = Some iv /\
         kd_data keyData = Some data /\
         openBackup pw salt iv data = None) /\
  (truthy_flag (kd_encrypted keyData) = true ->
   truthy password = false ->
   fst (importKeyPair blob password w)
     = if truthy (kd_privateKey keyData) && truthy (kd_publicKey keyData)
       then Ok (pairData (kd_privateKey keyData) (kd_publicKey keyData))
       else Raise (JsError "Invalid key file format")).
Proof.
  intros Hparse. unfold importKeyPair. rewrite Hparse. split.
  - destruct (truthy_flag (kd_encrypted keyData)) eqn:Henc; cbn [andb].
    2:{ split; [|intros [? _]; discriminate].
        destruct (truthy _ && truthy _); cbv [ret throw]; cbn; discriminate. }
    destruct password as [[|a pw]|]; cbn [truthy default].
    1,3: split; [destruct (truthy _ && truthy _); cbv [ret throw]; cbn; discriminate
                | intros [_ (pw & ? & ? & ? & [= <-] & Hne & _)]; congruence ].
    unfold Buffer_from_hex, openBackup. run.
    destruct (kd_salt keyData) as [salt|]; run;
      [|split; [discriminate | intros [_ (? & ? & ? & ? & _ & _ & [=] & _)]]].
    destruct (kd_iv keyData) as [iv|]; run;
      [|split; [discriminate | intros [_ (? & ? & ? & ? & _ & _ & _ & [=] & _)]]].
    destruct (kd_data keyData) as [data|]; run;
      [|split; [discriminate | intros [_ (? & ? & ? & ? & _ & _ & _ & _ & [=] & _)]]].
    cbn [key_material id].
    destruct (AES_GCM_decrypt _ _ _) as [decrypted|] eqn:Hopen; cbn [mbind option_bind];
      [destruct (JSON_parse (utf8_decode decrypted)) as [parsed|] eqn:Hjson|]; cbn.
    + split; [discriminate|].
      intros [_ (pw' & salt' & iv' & data' & [= <-] & _ & [= <-] & [= <-] & [= <-] & Hnone)].
      rewrite Hopen in Hnone. cbn in Hnone. congruence.
    + split; [|reflexivity]. intros _. split; [reflexivity|].
      exists (String a pw), salt, iv, data. rewrite Hopen. cbn. by rewrite Hjson.
    + split; [|reflexivity]. intros _. split; [reflexivity|].
      exists (String a pw), salt, iv, data. by rewrite Hopen.
  - intros -> Hpw. cbn [andb]. rewrite Hpw.
    by destruct (truthy _ && truthy _).
Qed.

Section BackupRoundTrip.

(** What the round trip rests on: AES-GCM opens what it sealed under the same
    key and nonce, and [JSON.parse] reads back what [JSON.stringify] wrote. *)
Hypothesis AES_GCM_opens_sealed :
  forall key iv plaintext,
    AES_GCM_decrypt key iv (AES_GCM_encrypt key iv plaintext) = Some plaintext.
Hypothesis JSON_parse_stringify :
  forall (space : nat) (keyData : KeyData),
    JSON_parse (JSON_stringify space keyData) = Some keyData.

(** C6: exporting a key pair under a password and importing the result with
    the same password gives back the pair.  With the empty password the
    export is the plain document, which the import accepts when both keys
    are non-empty strings, as the keys of a key pair are. *)
Theorem export_import_roundtrip (privateKey publicKey pw : string) (w : World) :
  pw <> "" \/ (privateKey <> "" /\ publicKey <> "") ->
  exists blob w1,
    exportKeyPair privateKey publicKey (Some pw) w = (Ok blob, w1) /\
    forall w2,
      importKeyPair blob (Some pw) w2
        = (Ok (pairData (Some privateKey) (Some publicKey)), w2).
Proof.
  intros Hvalid. unfold exportKeyPair, importKeyPair.
  destruct pw as [|a pw]; cbn [truthy default].
  - destruct Hvalid as [? | [Hpriv Hpub]]; [done|].
    eexists _, _. split; [reflexivity|]. intros w2.
    rewrite JSON_parse_stringify. cbn.
    destruct privateKey; [done|]. destruct publicKey; [done|]. reflexivity.
  - run. eexists _, _. split; [reflexivity|]. intros w2.
    rewrite JSON_parse_stringify. cbn [kd_encrypted kd_salt kd_iv kd_data
      truthy_flag truthy andb default Buffer_from_hex key_material].
    run. rewrite !hex_decode_encode. cbn [key_material].
    rewrite AES_GCM_opens_sealed, utf8_decode_encode, JSON_parse_stringify.
    reflexivity.
Qed.

End BackupRoundTrip.


(** * Further properties of the engine *)

(** ** Locked and missing *)

Lemma mutate_guard (config : StorageConfig) (op : Mutation) (w : World) :
  manifestCache w = None \/ masterKeyCache w = None ->
  mutate config op w = (Raise (JsError "Manifest not unlocked"), w).
Proof.
  intros Hlocked.
  assert (Hguard : requireUnlocked w = (Raise (JsError "Manifest not unlocked"), w)).
  { unfold requireUnlocked. run.
    destruct Hlocked as [-> | ->]; [reflexivity|].
    by destruct (manifestCache w). }
  destruct op; cbn [mutate];
    unfold addFileToManifest, removeFileFromManifest, removeFilesFromManifest,
      renameFile, toggleFileFavorite, createFolder, renameFolder, deleteFolder,
      moveFileToFolder, moveFilesToFolder, copyFilesToFolder;
    unfold bind; rewrite Hguard; reflexivity.
Qed.

(** X1: a mutation asked of a locked store, with no manifest or no key
    cached, raises "Manifest not unlocked" and changes nothing: no clock
    reading, no transport call, no write. *)
Theorem mutate_locked (config : StorageConfig) (op : Mutation) (w : World) :
  manifestCache w = None \/ masterKeyCache w = None ->
  mutate config op w = (Raise (JsError "Manifest not unlocked"), w).
Proof.
  intros Hlocked. unfold mutate.
  assert (Hguard : requireUnlocked w = (Raise (JsError "Manifest not unlocked"), w)).
  { unfold requireUnlocked, bind, get_world, ret, throw.
    destruct Hlocked as [-> | ->]; [reflexivity|].
    by destruct (manifestCache w). }
  destruct op;
    unfold addFileToManifest, removeFileFromManifest, removeFilesFromManifest,
      renameFile, toggleFileFavorite, createFolder, renameFolder, deleteFolder,
      moveFileToFolder, moveFilesToFolder, copyFilesToFolder;
    unfold bind; rewrite Hguard; reflexivity.
Qed.


Lemma list_find_absent_file (fileId : string) (l : list FileInfo.t) :
  fileId ∉ map FileInfo.fileId l ->
  list_find (fun f => FileInfo.fileId f = fileId) l = None.
Proof.
  intros Habsent. apply list_find_None, list.Forall_forall. intros f Hf Heq.
  apply Habsent. rewrite <- Heq. by apply list_elem_of_fmap_2.
Qed.

Lemma list_find_absent_folder (folderId : string) (l : list Folder.t) :
  folderId ∉ map Folder.id l ->
  list_find (fun f => Folder.id f = folderId) l = None.
Proof.
  intros Habsent. apply list_find_None, list.Forall_forall. intros f Hf Heq.
  apply Habsent. rewrite <- Heq. by apply list_elem_of_fmap_2.
Qed.

(** X2: the operations on one file that look it up, toggling its favorite
    flag, moving it and renaming it, raise "File not found" for an id the
    manifest does not hold, and renaming a folder raises "Folder not found";
    in each case nothing is changed, stamped or uploaded. *)
Theorem missing_id_raises (config : StorageConfig) (w : World) (m : Manifest.t)
    (masterKey : CryptoKey) :
  manifestCache w = Some m ->
  masterKeyCache w = Some masterKey ->
  (forall fileId, fileId ∉ map FileInfo.fileId (Manifest.files m) ->
     toggleFileFavorite config fileId w = (Raise (JsError "File not found"), w) /\
     (forall folderId,
        moveFileToFolder config fileId folderId w
          = (Raise (JsError "File not found"), w)) /\
     (forall newName,
        renameFile config fileId newName w = (Raise (JsError "File not found"), w))) /\
  (forall folderId newName, folderId ∉ map Folder.id (Manifest.folders m) ->
     renameFolder config folderId newName w = (Raise (JsError "Folder not found"), w)).
Proof.
  intros Hm Hk. split.
  - intros fileId Habsent.
    pose proof (list_find_absent_file _ _ Habsent) as Hfind.
    unfold toggleFileFavorite, moveFileToFolder, renameFile. run.
    rewrite Hm, Hk, Hfind. auto.
  - intros folderId newName Habsent.
    pose proof (list_find_absent_folder _ _ Habsent) as Hfind.
    unfold renameFolder. run. by rewrite Hm, Hk, Hfind.
Qed.

Ltac simpl_world H :=
  cbn [manifestCache masterKeyCache sessionStorage remote faults clock uuids
       entropy set_manifestCache set_masterKeyCache set_sessionStorage
       set_remote set_faults set_clock set_uuids set_entropy fst snd] in H.

(** ** Toggling a favorite *)

Lemma list_find_insert_same_id (fileId : string) (l : list FileInfo.t) (i : nat)
    (e e' : FileInfo.t) :
  list_find (fun f => FileInfo.fileId f = fileId) l = Some (i, e) ->
  FileInfo.fileId e' = fileId ->
  list_find (fun f => FileInfo.fileId f = fileId) (<[i := e']> l) = Some (i, e').
Proof.
  intros Hfind He'. apply list_find_Some in Hfind as (Hl & He & Hbefore).
  apply list_find_Some. split; [|split; [exact He'|]].
  - apply list_lookup_insert_eq. by eapply lookup_lt_Some.
  - intros j y Hj Hlt. rewrite list_lookup_insert_ne in Hj by lia. by eapply Hbefore.
Qed.

(** X3: toggling the favorite flag of a file twice gives back the file list
    there was, whether or not the uploads went through; when they do, the
    two calls return the negated flag and then the flag itself. *)
Theorem toggleFileFavorite_twice (config : StorageConfig) (fileId : string)
    (w : World) (m : Manifest.t) (masterKey : CryptoKey) (i : nat) (e : FileInfo.t) :
  manifestCache w = Some m ->
  masterKeyCache w = Some masterKey ->
  list_find (fun f => FileInfo.fileId f = fileId) (Manifest.files m) = Some (i, e) ->
  let w1 := snd (toggleFileFavorite config fileId w) in
  let w2 := snd (toggleFileFavorite config fileId w1) in
  (exists m2,
     manifestCache w2 = Some m2 /\
     Manifest.files m2 = Manifest.files m /\
     Manifest.folders m2 = Manifest.folders m) /\
  (faults w 0%nat = false -> faults w 1%nat = false ->
   fst (toggleFileFavorite config fileId w) = Ok (negb (FileInfo.isFavorite e)) /\
   fst (toggleFileFavorite config fileId w1) = Ok (FileInfo.isFavorite e)).
Proof.
  intros Hm Hk Hfind.
  set (e' := FileInfo.with_isFavorite (negb (FileInfo.isFavorite e)) e).
  set (m1 := Manifest.with_updatedAt (clock w 0%nat)
               (Manifest.with_files (<[i := e']> (Manifest.files m)) m)).
  assert (Hfirst : exists r w1,
            toggleFileFavorite config fileId w = (r, w1) /\
            manifestCache w1 = Some m1 /\ masterKeyCache w1 = Some masterKey /\
            (faults w 0%nat = false ->
             r = Ok (negb (FileInfo.isFavorite e)) /\ faults w1 0%nat = faults w 1%nat)).
  { unfold toggleFileFavorite. run. rewrite Hm, Hk, Hfind.
    match goal with
    | |- context [sealAndUpload config ?c masterKey ?w0] =>
        destruct (sealAndUpload_cases config c masterKey w0)
          as (r & w1 & Hs & Hr & Hc & Hkey & _);
        pose proof (sealAndUpload_ok config c masterKey w0) as Hok;
        rewrite Hs in *; cbn in Hc, Hkey, Hok
    end.
    destruct Hr as [-> | ->]; eexists _, _; (split; [reflexivity|]);
      (split; [exact Hc|]); (split; [by rewrite Hkey|]); intros Hf.
    - destruct (Hok Hf) as (w'' & [= <-] & _ & _ & _ & _ & Hfaults & _).
      split; [reflexivity|]. by rewrite Hfaults.
    - by destruct (Hok Hf) as (w'' & [=] & _). }
  destruct Hfirst as (r1 & w1 & Hrun1 & Hc1 & Hk1 & Hok1).
  cbv zeta. rewrite Hrun1. cbn [fst snd].
  assert (Hfind1 : list_find (fun f => FileInfo.fileId f = fileId) (Manifest.files m1)
                   = Some (i, e')).
  { subst m1. cbn. apply (list_find_insert_same_id _ _ _ e); [exact Hfind|].
    apply list_find_Some in Hfind as (_ & He & _). exact He. }
  unfold toggleFileFavorite. run. rewrite Hc1, Hk1, Hfind1.
  match goal with
  | |- context [sealAndUpload config ?c masterKey ?w0] =>
      destruct (sealAndUpload_cases config c masterKey w0)
        as (r & w2 & Hs & Hr & Hc & _);
      pose proof (sealAndUpload_ok config c masterKey w0) as Hok;
      rewrite Hs in *; simpl_world Hc; simpl_world Hok
  end.
  assert (Hback : FileInfo.with_isFavorite (negb (FileInfo.isFavorite e')) e' = e).
  { subst e'. destruct e as [? ? ? ? ? []]; reflexivity. }
  split.
  - eexists. split; [destruct Hr as [-> | ->]; exact Hc|].
    cbn [Manifest.files Manifest.folders Manifest.with_files Manifest.with_updatedAt].
    rewrite Hback. subst m1.
    cbn [Manifest.files Manifest.folders Manifest.with_files Manifest.with_updatedAt].
    rewrite list_insert_insert_eq. split; [|reflexivity].
    apply list_insert_id. by apply list_find_Some in Hfind as (Hl & _).
  - intros Hf0 Hf1. destruct (Hok1 Hf0) as [-> Hfaults]. split; [reflexivity|].
    rewrite Hfaults in Hok. destruct (Hok Hf1) as (w'' & [= -> _] & _).
    cbn. subst e'. cbn. by rewrite negb_involutive.
Qed.


(** ** Adding and removing files *)

Lemma list_find_snoc_file (fileId : string) (l : list FileInfo.t) (x : FileInfo.t) :
  FileInfo.fileId x = fileId ->
  snd <$> list_find (fun f => FileInfo.fileId f = fileId) (l ++ [x])
  = Some (default x (snd <$> list_find (fun f => FileInfo.fileId f = fileId) l)).
Proof.
  intros Hx. induction l as [|y l IH]; cbn.
  - by rewrite decide_True.
  - destruct (decide (FileInfo.fileId y = fileId)); [reflexivity|].
    destruct (list_find _ (l ++ [x])) as [[? ?]|], (list_find _ l) as [[? ?]|];
      cbn in *; congruence.
Qed.

Lemma list_find_snoc_other (fileId : string) (l : list FileInfo.t) (x : FileInfo.t) :
  FileInfo.fileId x <> fileId ->
  snd <$> list_find (fun f => FileInfo.fileId f = fileId) (l ++ [x])
  = snd <$> list_find (fun f => FileInfo.fileId f = fileId) l.
Proof.
  intros Hx. induction l as [|y l IH]; cbn.
  - by rewrite decide_False.
  - destruct (decide (FileInfo.fileId y = fileId)); [reflexivity|].
    destruct (list_find _ (l ++ [x])) as [[? ?]|], (list_find _ l) as [[? ?]|];
      cbn in *; congruence.
Qed.

Lemma list_find_filter_other_id (removed fileId : string) (l : list FileInfo.t) :
  snd <$> list_find (fun f => FileInfo.fileId f = fileId)
            (filter (fun f => FileInfo.fileId f <> removed) l)
  = if decide (fileId = removed) then None
    else snd <$> list_find (fun f => FileInfo.fileId f = fileId) l.
Proof.
  induction l as [|y l IH].
  - by destruct (decide _).
  - destruct (decide (FileInfo.fileId y = removed)) as [Hy|Hy].
    + rewrite filter_cons_False by (intros H; by apply H).
      rewrite IH. cbn. destruct (decide (fileId = removed)) as [->|Hne]; [reflexivity|].
      rewrite decide_False by congruence.
      by destruct (list_find _ l) as [[? ?]|].
    + rewrite filter_cons_True by exact Hy. cbn.
      destruct (decide (FileInfo.fileId y = fileId)) as [Heq|Hneq].
      * rewrite decide_False by congruence. reflexivity.
      * rewrite <- !option_fmap_compose.
        change (snd ∘ prod_map S id) with (@snd nat FileInfo.t).
        rewrite IH. by destruct (decide (fileId = removed)).
Qed.

(** What a call leaves in the manifest cache when it gets to its upload,
    whatever the upload's outcome. *)
Lemma sealAndUpload_cache_after (config : StorageConfig) (cache : Manifest.t)
    (masterKey : CryptoKey) (w : World) :
  manifestCache (snd (sealAndUpload config cache masterKey w)) = manifestCache w.
Proof.
  destruct (sealAndUpload_cases config cache masterKey w) as (r & w' & -> & _ & Hc & _).
  exact Hc.
Qed.

Ltac after_upload :=
  match goal with
  | |- context [sealAndUpload ?config ?c ?k ?w0] =>
      let H := fresh "Hafter" in
      pose proof (sealAndUpload_cache_after config c k w0) as H;
      destruct (sealAndUpload config c k w0) as [[[]|?] ?];
      cbn [fst snd] in H |- *; simpl_world H
  end.

(** X4: [addFileToManifest] appends the entry without looking for its id.
    After it, a lookup by that id gives the entry just added only when the
    id was new; when the manifest already held the id, the lookup still gives
    the earlier entry.  Lookups by other ids are as before. *)
Theorem addFile_then_lookup (config : StorageConfig) (fileInfo : FileInfo.t)
    (w : World) (m : Manifest.t) (masterKey : CryptoKey) :
  manifestCache w = Some m ->
  masterKeyCache w = Some masterKey ->
  let w' := snd (addFileToManifest config fileInfo w) in
  (exists m', manifestCache w' = Some m' /\
              Manifest.files m' = (Manifest.files m ++ [fileInfo])%list) /\
  fst (getFileFromManifest (FileInfo.fileId fileInfo) w')
    = Ok (Some (default fileInfo
                  (snd <$> list_find (fun f => FileInfo.fileId f = FileInfo.fileId fileInfo)
                                     (Manifest.files m)))) /\
  (forall other, other <> FileInfo.fileId fileInfo ->
     fst (getFileFromManifest other w') = fst (getFileFromManifest other w)).
Proof.
  intros Hm Hk. cbv zeta.
  unfold addFileToManifest. run. rewrite Hm, Hk. run. after_upload.
  all: unfold getFileFromManifest, getManifest; run; rewrite Hafter, Hm;
    cbn [Manifest.files Manifest.with_files Manifest.with_updatedAt].
  all: split; [eexists; split; reflexivity|].
  all: split; [by rewrite list_find_snoc_file|].
  all: intros other Hother; by rewrite list_find_snoc_other.
Qed.

(** X5: [removeFileFromManifest] drops every entry with the id, so a lookup
    by that id afterwards finds nothing, were the id there once, twice or
    never; lookups by other ids are as before. *)
Theorem removeFile_then_lookup (config : StorageConfig) (fileId : string)
    (w : World) (m : Manifest.t) (masterKey : CryptoKey) :
  manifestCache w = Some m ->
  masterKeyCache w = Some masterKey ->
  let w' := snd (removeFileFromManifest config fileId w) in
  fst (getFileFromManifest fileId w') = Ok None /\
  (forall other, other <> fileId ->
     fst (getFileFromManifest other w') = fst (getFileFromManifest other w)).
Proof.
  intros Hm Hk. cbv zeta.
  unfold removeFileFromManifest. run. rewrite Hm, Hk. run. after_upload.
  all: unfold getFileFromManifest, getManifest; run; rewrite Hafter, Hm;
    cbn [Manifest.files Manifest.with_files Manifest.with_updatedAt].
  all: split; [by rewrite list_find_filter_other_id, decide_True|].
  all: intros other Hother; by rewrite list_find_filter_other_id, decide_False.
Qed.

(** X6: adding a file under an id the manifest does not hold and then
    removing that id gives back the file list there was. *)
Theorem addFile_then_removeFile (config : StorageConfig) (fileInfo : FileInfo.t)
    (w : World) (m : Manifest.t) (masterKey : CryptoKey) :
  manifestCache w = Some m ->
  masterKeyCache w = Some masterKey ->
  FileInfo.fileId fileInfo ∉ map FileInfo.fileId (Manifest.files m) ->
  let w1 := snd (addFileToManifest config fileInfo w) in
  let w2 := snd (removeFileFromManifest config (FileInfo.fileId fileInfo) w1) in
  exists m2,
    manifestCache w2 = Some m2 /\
    Manifest.files m2 = Manifest.files m /\
    Manifest.folders m2 = Manifest.folders m.
Proof.
  intros Hm Hk Hfresh. cbv zeta.
  assert (Hfirst : exists m1,
            manifestCache (snd (addFileToManifest config fileInfo w)) = Some m1 /\
            masterKeyCache (snd (addFileToManifest config fileInfo w)) = Some masterKey /\
            Manifest.files m1 = (Manifest.files m ++ [fileInfo])%list /\
            Manifest.folders m1 = Manifest.folders m).
  { unfold addFileToManifest. run. rewrite Hm, Hk. run.
    match goal with
    | |- context [sealAndUpload config ?c masterKey ?w0] =>
        destruct (sealAndUpload_cases config c masterKey w0)
          as (r & w1 & -> & Hr & Hc & Hkey & _); simpl_world Hc; simpl_world Hkey
    end.
    eexists. destruct Hr as [-> | ->]; cbn [fst snd];
      (split; [exact Hc|]); (split; [by rewrite Hkey|]); split; reflexivity. }
  destruct Hfirst as (m1 & Hc1 & Hk1 & Hfiles1 & Hfolders1).
  set (w1 := snd (addFileToManifest config fileInfo w)) in *.
  unfold removeFileFromManifest. run. rewrite Hc1, Hk1. run. after_upload.
  all: eexists; (split; [exact Hafter|]);
    cbn [Manifest.files Manifest.folders Manifest.with_files Manifest.with_updatedAt];
    split; [|exact Hfolders1].
  all: rewrite Hfiles1, list.filter_app, (filter_absent_id _ _ Hfresh),
         filter_cons_False, filter_nil, app_nil_r by (intros H; by apply H);
       reflexivity.
Qed.

(** X7: there is no rollback.  When the upload of [addFileToManifest] fails,
    the call raises the transport's error with the entry already in the
    cached manifest and [updatedAt] already stamped, while the store and the
    session cache still hold what they held. *)
Theorem addFile_upload_failure (config : StorageConfig) (fileInfo : FileInfo.t)
    (w : World) (m : Manifest.t) (masterKey : CryptoKey) :
  manifestCache w = Some m ->
  masterKeyCache w = Some masterKey ->
  faults w 0%nat = true ->
  exists w' m',
    addFileToManifest config fileInfo w = (Raise TransportError, w') /\
    manifestCache w' = Some m' /\
    Manifest.files m' = (Manifest.files m ++ [fileInfo])%list /\
    Manifest.updatedAt m' = clock w 0%nat /\
    remote w' = remote w /\
    sessionStorage w' = sessionStorage w.
Proof.
  intros Hm Hk Hf.
  unfold addFileToManifest, sealAndUpload. run. rewrite Hm, Hk, Hf. run.
  eexists _, _. repeat split.
Qed.


(** ** The store and the cache *)

Lemma sealAndUpload_success (config : StorageConfig) (cache : Manifest.t)
    (masterKey : CryptoKey) (w w' : World) :
  sealAndUpload config cache masterKey w = (Ok tt, w') ->
  manifestCache w' = manifestCache w /\
  masterKeyCache w' = masterKeyCache w /\
  exists iv, length iv = 12%nat /\
             remote w' config !! MANIFEST_KEY = Some (sealedManifest masterKey iv cache).
Proof.
  unfold sealAndUpload. run. destruct (faults w 0%nat); cbn; [discriminate|].
  intros [= <-]. destruct (sessionStorage w); cbn; rewrite decide_True by reflexivity;
    rewrite lookup_insert_eq; repeat split; by eexists (map (entropy w) (seq 0 12)).
Qed.

(** A copy that reports no new id has found none of the listed ids, and has
    done nothing at all. *)
Lemma copyEach_nothing (config : StorageConfig) (targetFolderId : option string)
    (total : nat) (fileIds : list string) :
  forall (w w' : World) (acc : list string) (copied : nat) (m : Manifest.t),
    manifestCache w = Some m ->
    copyEach config fileIds targetFolderId None total acc copied w = (Ok acc, w') ->
    w' = w.
Proof.
  induction fileIds as [|fileId others IH]; intros w w' acc copied m Hm Hrun.
  - cbn in Hrun. by injection Hrun as <-.
  - cbn [copyEach] in Hrun. revert Hrun. run. rewrite Hm.
    destruct (list_find _ (Manifest.files m)) as [[i original]|].
    2:{ intros Hrun. exact (IH _ _ _ _ _ Hm Hrun). }
    destruct (faults w 0%nat); cbn; [discriminate|].
    destruct (remote w config !! _) as [data|]; cbn; [|discriminate].
    destruct (rest 1 (faults w) 0%nat); cbn; [discriminate|].
    rewrite Hm. cbn. intros Hrun.
    match type of Hrun with
    | copyEach _ _ _ _ _ _ _ ?w1 = _ =>
        destruct (copyEach_invariant _ _ _ _ w1 _ _ _ _ _ eq_refl Hrun)
          as (m' & j & _ & _ & _ & _ & Hids)
    end.
    destruct (Hids acc eq_refl) as (new & Hnew & _).
    apply (f_equal length) in Hnew. rewrite !length_app in Hnew. cbn in Hnew. lia.
Qed.

(** X8: a mutation that ends well leaves the store in step with the cache:
    under the manifest key lies the cached manifest, sealed under the cached
    key with a 12-byte nonce in front, whatever lay there before.  The one
    exception is a copy that found none of its ids, which touches nothing. *)
Theorem mutate_in_sync (config : StorageConfig) (op : Mutation)
    (w w' : World) (m : Manifest.t) (masterKey : CryptoKey) :
  manifestCache w = Some m ->
  masterKeyCache w = Some masterKey ->
  mutate config op w = (Ok tt, w') ->
  in_sync config w' \/
  (w' = w /\ exists fileIds targetFolderId, op = CopyFiles fileIds targetFolderId).
Proof.
  intros Hm Hk.
  assert (Hsealed : forall c w0 w1,
            masterKeyCache w0 = Some masterKey -> manifestCache w0 = Some c ->
            sealAndUpload config c masterKey w0 = (Ok tt, w1) -> in_sync config w1).
  { intros c w0 w1 Hk0 Hc0 Hs.
    apply sealAndUpload_success in Hs as (Hc & Hkey & iv & Hlen & Hrem).
    exists c, masterKey, iv. rewrite Hc, Hkey. auto. }
  destruct op; cbn [mutate];
    try (unfold addFileToManifest, removeFileFromManifest, removeFilesFromManifest,
           renameFile, toggleFileFavorite, createFolder, renameFolder, deleteFolder,
           moveFileToFolder, moveFilesToFolder;
         run; rewrite Hm, Hk;
         try match goal with
             | |- context [list_find ?P ?l] =>
                 destruct (list_find P l) as [[? ?]|]; [|discriminate]
             end;
         match goal with
         | |- context [sealAndUpload config ?c masterKey ?w0] =>
             destruct (sealAndUpload config c masterKey w0) as [[[]|?] w1] eqn:Hs;
             [|discriminate]; intros [= <-]; left;
             exact (Hsealed c w0 _ Hk eq_refl Hs)
         end).
  unfold copyFilesToFolder. run. rewrite Hm, Hk.
  destruct (copyEach config fileIds targetFolderId None (length fileIds) [] 0%nat w)
    as [[ids|e] w1] eqn:Hloop; [|discriminate].
  destruct (copyEach_invariant _ _ _ _ _ _ _ _ _ _ Hm Hloop)
    as (m1 & j & Hc1 & _ & Hk1 & _ & _).
  destruct ids as [|newId ids].
  - intros [= <-]. right. split; [|eauto]. exact (copyEach_nothing _ _ _ _ _ _ _ _ _ Hm Hloop).
  - rewrite Hc1, Hk1, Hk.
    match goal with
    | |- context [sealAndUpload config ?c masterKey ?w0] =>
        destruct (sealAndUpload config c masterKey w0) as [[[]|?] w2] eqn:Hs;
        [|discriminate]; intros [= <-]; left;
        refine (Hsealed c w0 _ _ eq_refl Hs); cbn; by rewrite Hk1
    end.
Qed.

(** X9: [manifestExists] never raises and writes nothing; it answers [true]
    exactly when the fetch goes through, so a transport failure reads as "no
    manifest" although one is stored. *)
Theorem manifestExists_answer (config : StorageConfig) (w : World) :
  exists answer w',
    manifestExists config w = (Ok answer, w') /\
    (answer = true <->
       faults w 0%nat = false /\ is_Some (remote w config !! MANIFEST_KEY)) /\
    remote w' = remote w /\
    manifestCache w' = manifestCache w /\
    masterKeyCache w' = masterKeyCache w /\
    sessionStorage w' = sessionStorage w.
Proof.
  unfold manifestExists. run.
  destruct (faults w 0%nat); cbn.
  - eexists _, _. split; [reflexivity|]. repeat split; try done. by intros [? _].
  - destruct (remote w config !! MANIFEST_KEY) as [data|]; cbn;
      eexists _, _; (split; [reflexivity|]); repeat split; try done; eauto.
    by intros [_ [? ?]].
Qed.

(** X10: [initializeManifest] asks nothing of the store before it writes.
    When the upload goes through, whatever lay under the manifest key is
    replaced by a sealed empty manifest of version 1, whose two timestamps
    are two readings of the clock, and the session is unlocked with the key
    derived from the private key. *)
Theorem initializeManifest_overwrites (config : StorageConfig) (privateKeyHex : string)
    (w : World) :
  faults w 0%nat = false ->
  exists w' masterKey,
    initializeManifest config privateKeyHex w = (Ok tt, w') /\
    fst (deriveManifestKeyFromPrivateKey privateKeyHex w) = Ok masterKey /\
    manifestCache w'
      = Some (Manifest.mk 1 [] [] (clock w 0%nat) (clock w 1%nat)) /\
    masterKeyCache w' = Some masterKey /\
    in_sync config w' /\
    (forall s, sessionStorage w = Some s ->
       exists s', sessionStorage w' = Some s' /\
                  s' !! SESSION_UNLOCKED_KEY = Some "true").
Proof.
  intros Hf. unfold initializeManifest, deriveManifestKeyFromPrivateKey,
    createEmptyManifest, markSessionUnlocked. run. rewrite Hf. run.
  assert (Hsync : forall w0 iv (c : Manifest.t) (k : CryptoKey),
            manifestCache w0 = Some c -> masterKeyCache w0 = Some k ->
            length iv = 12%nat ->
            remote w0 config !! MANIFEST_KEY = Some (sealedManifest k iv c) ->
            in_sync config w0).
  { intros w0 iv c k ? ? ? ?. by exists c, k, iv. }
  destruct (sessionStorage w) as [s|] eqn:Hs; run; rewrite ?Hs; run;
    eexists _, _; (split; [reflexivity|]); (split; [reflexivity|]);
    (split; [reflexivity|]); (split; [reflexivity|]); split.
  - eapply (Hsync _ (map (entropy w) (seq 0 12))); try reflexivity.
    cbn. rewrite decide_True by reflexivity. by rewrite lookup_insert_eq.
  - intros s0 [= <-]. eexists. split; [reflexivity|]. by rewrite lookup_insert_eq.
  - eapply (Hsync _ (map (entropy w) (seq 0 12))); try reflexivity.
    cbn. rewrite decide_True by reflexivity. by rewrite lookup_insert_eq.
  - discriminate.
Qed.


(** ** Sealing, opening and refreshing *)


Section ManifestRoundTrip.

(** What opening a sealed manifest rests on: AES-GCM opens what it sealed
    under the same key and nonce, and [JSON.parse] reads back the manifest
    that [JSON.stringify] wrote. *)
Hypothesis AES_GCM_opens_sealed :
  forall key iv plaintext,
    AES_GCM_decrypt key iv (AES_GCM_encrypt key iv plaintext) = Some plaintext.
Hypothesis JSON_parse_stringify_manifest :
  forall m : Manifest.t, JSON_parse (JSON_stringify 0 m) = Some m.

Lemma decryptManifest_sealed (masterKey : CryptoKey) (iv : bytes) (m : Manifest.t)
    (w : World) :
  length iv = 12%nat ->
  decryptManifest (sealedManifest masterKey iv m) masterKey w = (Ok m, w).
Proof.
  intros Hlen. unfold decryptManifest, sealedManifest.
  rewrite <- Hlen, take_app_length, drop_app_length.
  by rewrite AES_GCM_opens_sealed, utf8_decode_encode, JSON_parse_stringify_manifest.
Qed.

(** X12: what [encryptManifest] seals, [decryptManifest] opens under the same
    key to the same manifest; the sealed bytes start with the 12 bytes drawn
    as nonce. *)
Theorem decryptManifest_encryptManifest (m : Manifest.t) (masterKey : CryptoKey)
    (w : World) :
  exists blob w1,
    encryptManifest m masterKey w = (Ok blob, w1) /\
    take 12 blob = map (entropy w) (seq 0 12) /\
    forall w2, decryptManifest blob masterKey w2 = (Ok m, w2).
Proof.
  unfold encryptManifest. run. eexists _, _. split; [reflexivity|].
  split; [reflexivity|]. intros w2.
  apply (decryptManifest_sealed masterKey (map (entropy w) (seq 0 12))). reflexivity.
Qed.

(** X13: a refresh that goes through adopts the store's manifest: with a
    manifest sealed under the cached key in the store, [syncManifest] returns
    it, puts it in place of whatever was cached, changes made here and not
    uploaded included, and writes its text to the session cache. *)
Theorem syncManifest_adopts_remote (config : StorageConfig) (w : World)
    (masterKey : CryptoKey) (iv : bytes) (stored : Manifest.t) :
  masterKeyCache w = Some masterKey ->
  length iv = 12%nat ->
  remote w config !! MANIFEST_KEY = Some (sealedManifest masterKey iv stored) ->
  faults w 0%nat = false ->
  exists w',
    syncManifest config w = (Ok (Some stored), w') /\
    manifestCache w' = Some stored /\
    masterKeyCache w' = Some masterKey /\
    remote w' = remote w /\
    (forall s, sessionStorage w = Some s ->
       sessionStorage w' = Some (<[SESSION_CACHE_KEY := JSON_stringify 0 stored]> s)).
Proof.
  intros Hk Hlen Hstored Hf. unfold syncManifest. run. rewrite Hk, Hf. cbn.
  rewrite Hstored. cbn. rewrite (decryptManifest_sealed _ _ _ _ Hlen). cbn.
  destruct (sessionStorage w) as [s|]; eexists; (split; [reflexivity|]);
    cbn; repeat split; auto; congruence.
Qed.

(** X14: unlocking with the private key the manifest was sealed for returns
    the stored manifest, caches it with the derived key and marks the
    session unlocked; in particular the manifest that [initializeManifest]
    made is the one a later [unlockManifest] with the same key returns. *)
Theorem unlockManifest_opens (config : StorageConfig) (privateKeyHex : string)
    (w : World) (masterKey : CryptoKey) (iv : bytes) (stored : Manifest.t) :
  fst (deriveManifestKeyFromPrivateKey privateKeyHex w) = Ok masterKey ->
  length iv = 12%nat ->
  remote w config !! MANIFEST_KEY = Some (sealedManifest masterKey iv stored) ->
  faults w 0%nat = false ->
  (exists w',
     unlockManifest config privateKeyHex w = (Ok stored, w') /\
     manifestCache w' = Some stored /\
     masterKeyCache w' = Some masterKey /\
     fst (isManifestUnlocked w') = Ok (bool_decide (sessionStorage w <> None))) /\
  (forall w0,
     faults w0 0%nat = false -> faults w0 1%nat = false ->
     let w1 := snd (initializeManifest config privateKeyHex w0) in
     fst (unlockManifest config privateKeyHex w1)
       = Ok (Manifest.mk 1 [] [] (clock w0 0%nat) (clock w0 1%nat))).
Proof.
  intros Hkey Hlen Hstored Hf. split.
  - revert Hkey. unfold unlockManifest, deriveManifestKeyFromPrivateKey,
      markSessionUnlocked, isManifestUnlocked. run. intros [= <-].
    rewrite Hf. cbn. rewrite Hstored. cbn.
    rewrite (decryptManifest_sealed _ _ _ _ Hlen). cbn.
    destruct (sessionStorage w) as [s|] eqn:Hs; run; rewrite ?Hs; run;
      eexists; (split; [reflexivity|]); run; rewrite ?Hs; repeat split.
    rewrite lookup_insert_eq. reflexivity.
  - intros w0 Hf0 Hf1. cbv zeta.
    unfold initializeManifest, unlockManifest, deriveManifestKeyFromPrivateKey,
      createEmptyManifest, markSessionUnlocked. run. rewrite Hf0. cbn.
    assert (Hopen : forall w2,
              decryptManifest
                (map (entropy w0) (seq 0 12) ++
                 AES_GCM_encrypt
                   (HKDF_SHA256 (repeat Byte.x00 16) (utf8_encode "manifest-encryption")
                      (Hex.decode privateKeyHex) 256)
                   (map (entropy w0) (seq 0 12))
                   (utf8_encode
                      (JSON_stringify 0
                         (Manifest.mk 1 [] [] (clock w0 0%nat) (clock w0 1%nat)))))%list
                {| key_algorithm := "AES-GCM"; key_bits := 256;
                   key_material :=
                     HKDF_SHA256 (repeat Byte.x00 16) (utf8_encode "manifest-encryption")
                       (Hex.decode privateKeyHex) 256 |} w2
              = (Ok (Manifest.mk 1 [] [] (clock w0 0%nat) (clock w0 1%nat)), w2)).
    { intros w2.
      apply (decryptManifest_sealed
               {| key_algorithm := "AES-GCM"; key_bits := 256;
                  key_material :=
                    HKDF_SHA256 (repeat Byte.x00 16) (utf8_encode "manifest-encryption")
                      (Hex.decode privateKeyHex) 256 |}
               (map (entropy w0) (seq 0 12))). reflexivity. }
    destruct (sessionStorage w0) as [s|] eqn:Hs; run; rewrite ?Hs; run;
      change (rest 1 (faults w0) 0%nat) with (faults w0 1%nat); rewrite Hf1; cbn;
      rewrite decide_True by reflexivity; rewrite lookup_insert_eq; cbn;
      cbn in Hopen; rewrite Hopen; reflexivity.
Qed.

End ManifestRoundTrip.


(** ** Locking and reloading *)

(** X15: locking forgets everything held here and nothing held in the store.
    After [lockManifest], with a notes cache that clears without touching
    this state, no manifest and no key are cached, the session storage has
    lost both entries, the cached text and the unlocked mark, and kept every
    other entry it had, [getManifest] returns [null], the session reads as
    not unlocked, [syncManifest] returns [null], and every mutation raises
    "Manifest not unlocked"; the store and the coming readings of the
    environment are as they were. *)
Theorem lockManifest_forgets (clearNotesCache : M unit) (w : World) :
  (forall w0, clearNotesCache w0 = (Ok tt, w0)) ->
  let w' := snd (lockManifest clearNotesCache w) in
  fst (lockManifest clearNotesCache w) = Ok tt /\
  manifestCache w' = None /\
  masterKeyCache w' = None /\
  (sessionStorage w' = None <-> sessionStorage w = None) /\
  (forall s', sessionStorage w' = Some s' ->
     s' !! SESSION_CACHE_KEY = None /\
     s' !! SESSION_UNLOCKED_KEY = None /\
     exists s, sessionStorage w = Some s /\
       forall key, key <> SESSION_CACHE_KEY -> key <> SESSION_UNLOCKED_KEY ->
                   s' !! key = s !! key) /\
  remote w' = remote w /\
  faults w' = faults w /\ clock w' = clock w /\
  uuids w' = uuids w /\ entropy w' = entropy w /\
  getManifest w' = (Ok None, w') /\
  fst (isManifestUnlocked w') = Ok false /\
  (forall config, syncManifest config w' = (Ok None, w')) /\
  (forall config op,
     mutate config op w' = (Raise (JsError "Manifest not unlocked"), w')).
Proof.
  intros Hnotes. cbv zeta.
  assert (Hlock : lockManifest clearNotesCache w
                  = (Ok tt,
                     match sessionStorage w with
                     | Some s =>
                         set_sessionStorage
                           (Some (delete SESSION_UNLOCKED_KEY (delete SESSION_CACHE_KEY s)))
                           (set_masterKeyCache None (set_manifestCache None w))
                     | None => set_masterKeyCache None (set_manifestCache None w)
                     end)).
  { unfold lockManifest. run. rewrite Hnotes. run. by destruct (sessionStorage w). }
  rewrite Hlock. cbn [fst snd].
  split; [reflexivity|].
  destruct (sessionStorage w) as [s|] eqn:Hs;
    (split; [reflexivity|]); (split; [reflexivity|]);
    (split; [cbn; try rewrite Hs; by split|]);
    (split; [|split; [reflexivity|split; [reflexivity|split; [reflexivity|
       split; [reflexivity|split; [reflexivity|
       split; [|split; [|split; [intros config; reflexivity
                               |intros config op; apply mutate_guard; by left]]]]]]]]]).
  - cbn. intros s' [= <-].
    split; [rewrite lookup_delete_ne by discriminate; by rewrite lookup_delete_eq|].
    split; [by rewrite lookup_delete_eq|].
    exists s. split; [reflexivity|]. intros key Hcache Hunlocked.
    rewrite lookup_delete_ne by congruence. by rewrite lookup_delete_ne by congruence.
  - unfold getManifest, loadFromSessionCache. run.
    rewrite lookup_delete_ne by discriminate. by rewrite lookup_delete_eq.
  - unfold isManifestUnlocked. run. by rewrite andb_false_r.
  - cbn. rewrite Hs. discriminate.
  - unfold getManifest, loadFromSessionCache. run. by rewrite Hs.
  - unfold isManifestUnlocked. run. by rewrite Hs.
Qed.

(** X16: after a page reload the manifest comes back from the session
    storage and the master key does not.  In the reloaded state
    [getManifest] returns the manifest whose text the session holds and
    caches it; from then on the session reads as unlocked, and yet every
    mutation raises "Manifest not unlocked" and [syncManifest] returns
    [null], for want of the key. *)
Theorem getManifest_after_reload (m : Manifest.t) (w : World) :
  reloaded m w ->
  JSON_stringify 0 m <> "" ->
  JSON_parse (JSON_stringify 0 m) = Some m ->
  fst (isManifestUnlocked w) = Ok false /\
  exists w',
    getManifest w = (Ok (Some m), w') /\
    manifestCache w' = Some m /\
    masterKeyCache w' = None /\
    fst (isManifestUnlocked w') = Ok true /\
    (forall config, fst (syncManifest config w') = Ok None) /\
    (forall config op,
       mutate config op w' = (Raise (JsError "Manifest not unlocked"), w')).
Proof.
  intros (Hm & Hk & s & Hs & Hflag & Htext) Hnonempty Hparse.
  split.
  { unfold isManifestUnlocked. run. rewrite Hs, Hm. cbn. by rewrite andb_false_r. }
  unfold getManifest, loadFromSessionCache. run. rewrite Hm, Hs, Htext.
  destruct (JSON_stringify 0 m) as [|a r] eqn:Htxt; [done|].
  rewrite Hparse. run. eexists. split; [reflexivity|]. run.
  split; [reflexivity|]. split; [exact Hk|]. split.
  { unfold isManifestUnlocked. run. rewrite Hs, Hflag. reflexivity. }
  split.
  - intros config. unfold syncManifest. run. by rewrite Hk.
  - intros config op. apply mutate_guard. by right. 
Qed.


(** ** Folders and listings *)

Lemma sealAndUpload_other_keys (config : StorageConfig) (cache : Manifest.t)
    (masterKey : CryptoKey) (w : World) (key : string) :
  key <> MANIFEST_KEY ->
  remote (snd (sealAndUpload config cache masterKey w)) config !! key
  = remote w config !! key.
Proof.
  intros Hkey. unfold sealAndUpload. run.
  destruct (faults w 0%nat); cbn; [reflexivity|].
  destruct (sessionStorage w); cbn; rewrite decide_True by reflexivity;
    by rewrite lookup_insert_ne.
Qed.

(** X17: deleting a folder with its contents returns the ids of the files it
    dropped, in manifest order; the cached manifest keeps exactly the files
    outside the folder, so dropped and kept files together are the files
    there were.  The content blobs are not touched: every key of the store
    but the manifest's holds what it held. *)
Theorem deleteFolder_with_contents (config : StorageConfig) (F : string)
    (w : World) (m : Manifest.t) (masterKey : CryptoKey) :
  manifestCache w = Some m ->
  masterKeyCache w = Some masterKey ->
  let dropped := filter (fun f => FileInfo.folderId f = Some F) (Manifest.files m) in
  let w' := snd (deleteFolder config F true w) in
  (fst (deleteFolder config F true w) = Ok (map FileInfo.fileId dropped) \/
   fst (deleteFolder config F true w) = Raise TransportError) /\
  (faults w 0%nat = false ->
   fst (deleteFolder config F true w) = Ok (map FileInfo.fileId dropped)) /\
  (exists m',
     manifestCache w' = Some m' /\
     Manifest.files m'
       = filter (fun f => FileInfo.folderId f <> Some F) (Manifest.files m) /\
     (dropped ++ Manifest.files m')%list ≡ₚ Manifest.files m) /\
  (forall key, key <> MANIFEST_KEY ->
     remote w' config !! key = remote w config !! key).
Proof.
  intros Hm Hk. cbv zeta.
  unfold deleteFolder. run. rewrite Hm, Hk.
  match goal with
  | |- context [sealAndUpload config ?c masterKey ?w0] =>
      pose proof (sealAndUpload_cases config c masterKey w0)
        as (r & w' & Hs & Hr & Hcache & _);
      pose proof (sealAndUpload_ok config c masterKey w0) as Hok;
      pose proof (sealAndUpload_other_keys config c masterKey w0) as Hkeys;
      rewrite Hs in *; simpl_world Hcache; simpl_world Hok; simpl_world Hkeys
  end.
  split; [destruct Hr as [-> | ->]; auto|].
  split.
  { intros Hf. by destruct (Hok Hf) as (w'' & [= -> _] & _). }
  split.
  - exists (Manifest.with_updatedAt (clock w 0%nat)
             (Manifest.with_folders
                (filter (fun f => Folder.id f <> F) (Manifest.folders m))
                (Manifest.with_files
                   (filter (fun f => FileInfo.folderId f <> Some F) (Manifest.files m))
                   m))).
    split; [destruct Hr as [-> | ->]; exact Hcache|]. split; [reflexivity|].
    cbn [Manifest.files Manifest.with_files Manifest.with_folders Manifest.with_updatedAt].
    apply filter_app_complement.
  - intros key Hkey. destruct Hr as [-> | ->]; cbn [snd]; by apply Hkeys.
Qed.

Lemma filter_map_folder (F : string) (g : FileInfo.t -> FileInfo.t)
    (l : list FileInfo.t) :
  (forall f, FileInfo.folderId (g f) <> Some F) ->
  filter (fun f => FileInfo.folderId f = Some F) (map g l) = [].
Proof.
  intros Hg. induction l as [|f l IH]; [reflexivity|].
  cbn [map]. rewrite filter_cons_False by apply Hg. exact IH.
Qed.

Lemma filter_filter_folder (F : string) (l : list FileInfo.t) :
  filter (fun f => FileInfo.folderId f = Some F)
         (filter (fun f => FileInfo.folderId f <> Some F) l) = [].
Proof.
  induction l as [|f l IH]; [reflexivity|].
  destruct (decide (FileInfo.folderId f = Some F)) as [Heq|Hne].
  - by rewrite filter_cons_False by (intros H; by apply H).
  - rewrite filter_cons_True by exact Hne. by rewrite filter_cons_False.
Qed.

(** X18: after [deleteFolder], with or without the contents, the listing of
    the deleted folder is empty. *)
Theorem deleteFolder_then_list (config : StorageConfig) (F : string)
    (deleteContents : bool) (w : World) (m : Manifest.t) (masterKey : CryptoKey) :
  manifestCache w = Some m ->
  masterKeyCache w = Some masterKey ->
  let w' := snd (deleteFolder config F deleteContents w) in
  getFilesInFolder (Some F) w' = (Ok [], w') /\
  forall g, g ∈ Manifest.folders m -> Folder.id g = F ->
    forall parentId listing,
      fst (getFoldersInFolder parentId w') = Ok listing -> g ∉ listing.
Proof.
  intros Hm Hk. cbv zeta.
  unfold deleteFolder. run. rewrite Hm, Hk. after_upload.
  all: unfold getFilesInFolder, getFoldersInFolder, getManifest; run; rewrite Hafter;
    cbn [Manifest.files Manifest.folders Manifest.with_files Manifest.with_folders
         Manifest.with_updatedAt].
  all: split;
    [ destruct deleteContents;
      cbn [Manifest.files Manifest.folders Manifest.with_files Manifest.with_folders
           Manifest.with_updatedAt];
      [ by rewrite filter_filter_folder
      | rewrite filter_map_folder; [reflexivity|];
        intros f; by destruct (decide _) ]
    | intros g Hg Hid parentId listing [= <-] Hin;
      destruct deleteContents;
      cbn [Manifest.files Manifest.folders Manifest.with_files Manifest.with_folders
           Manifest.with_updatedAt] in Hin;
      apply list_elem_of_filter in Hin as [_ Hin];
      by apply list_elem_of_filter in Hin as [Hne _] ].
Qed.

(** X19: [createFolder] appends a folder with a newly drawn id and the
    clock's reading, without asking whether its parent exists or its name is
    taken.  Afterwards the folder is the last of all folders and the last of
    the listing of its parent; listings of other parents are as before. *)
Theorem createFolder_then_list (config : StorageConfig) (name : string)
    (parentId color : option string) (w : World) (m : Manifest.t)
    (masterKey : CryptoKey) :
  manifestCache w = Some m ->
  masterKeyCache w = Some masterKey ->
  let folder := Folder.mk (uuids w 0%nat) name parentId (clock w 0%nat) color in
  let w' := snd (createFolder config name parentId color w) in
  (faults w 0%nat = false ->
   fst (createFolder config name parentId color w) = Ok folder) /\
  fst (getFolders w') = Ok (Manifest.folders m ++ [folder])%list /\
  fst (getFoldersInFolder parentId w')
    = Ok (filter (fun f => Folder.parentId f = parentId) (Manifest.folders m)
          ++ [folder])%list /\
  (forall other, other <> parentId ->
     fst (getFoldersInFolder other w') = fst (getFoldersInFolder other w)).
Proof.
  intros Hm Hk. cbv zeta.
  unfold createFolder. run. rewrite Hm, Hk.
  match goal with
  | |- context [sealAndUpload config ?c masterKey ?w0] =>
      pose proof (sealAndUpload_cases config c masterKey w0)
        as (r & w' & Hs & Hr & Hcache & _);
      pose proof (sealAndUpload_ok config c masterKey w0) as Hok;
      rewrite Hs in *; simpl_world Hcache; simpl_world Hok
  end.
  split.
  { intros Hf. by destruct (Hok Hf) as (w'' & [= -> _] & _). }
  assert (Hw' : forall A (x : A) (k : Error -> Result A),
            snd (match r with Ok _ => (Ok x, w') | Raise e0 => (k e0, w') end) = w')
    by (intros; by destruct r).
  rewrite Hw'.
  unfold getFolders, getFoldersInFolder, getManifest. run. rewrite Hcache, Hm.
  cbn [Manifest.files Manifest.folders Manifest.with_files Manifest.with_folders
       Manifest.with_updatedAt].
  split; [reflexivity|]. split.
  - rewrite list.filter_app, filter_cons_True by reflexivity. reflexivity.
  - intros other Hother. rewrite list.filter_app, filter_cons_False by (cbn; congruence).
    by rewrite filter_nil, app_nil_r.
Qed.



(** ** File ids *)

Lemma map_insert_same (A B : Type) (f : A -> B) (l : list A) (i : nat) (e e' : A) :
  l !! i = Some e -> f e' = f e -> map f (<[i := e']> l) = map f l.
Proof.
  revert i. induction l as [|x l IH]; intros [|i] Hl He; try discriminate.
  - injection Hl as ->. cbn. by rewrite He.
  - cbn. f_equal. by apply IH.
Qed.

Lemma map_filter_sublist (A B : Type) (f : A -> B) (P : A -> Prop)
    `{forall x, Decision (P x)} (l : list A) :
  map f (filter P l) `sublist_of` map f l.
Proof. apply (fmap_sublist f), sublist_filter. Qed.

(** X21: only [addFileToManifest] and [copyFilesToFolder] bring a file id
    into the manifest.  After any other mutation, ended well or not, the ids
    of the cached files are a sublist of the ids before, so ids that were
    distinct stay distinct; and the mutations that neither add nor remove,
    renaming, toggling, moving, and the folder operations that keep the
    files, leave the list of ids exactly as it was. *)
Theorem mutate_file_ids (config : StorageConfig) (op : Mutation) (w : World)
    (m : Manifest.t) (masterKey : CryptoKey) :
  manifestCache w = Some m ->
  masterKeyCache w = Some masterKey ->
  (forall fileInfo, op <> AddFile fileInfo) ->
  (forall fileIds targetFolderId, op <> CopyFiles fileIds targetFolderId) ->
  exists m',
    manifestCache (snd (mutate config op w)) = Some m' /\
    map FileInfo.fileId (Manifest.files m')
      `sublist_of` map FileInfo.fileId (Manifest.files m) /\
    (NoDup (map FileInfo.fileId (Manifest.files m)) ->
     NoDup (map FileInfo.fileId (Manifest.files m'))) /\
    match op with
    | RemoveFile _ | RemoveFiles _ | DeleteFolder _ true => True
    | _ => map FileInfo.fileId (Manifest.files m')
           = map FileInfo.fileId (Manifest.files m)
    end.
Proof.
  intros Hm Hk Hadd Hcopy.
  cut (exists m',
         manifestCache (snd (mutate config op w)) = Some m' /\
         map FileInfo.fileId (Manifest.files m')
           `sublist_of` map FileInfo.fileId (Manifest.files m) /\
         match op with
         | RemoveFile _ | RemoveFiles _ | DeleteFolder _ true => True
         | _ => map FileInfo.fileId (Manifest.files m')
                = map FileInfo.fileId (Manifest.files m)
         end).
  { intros (m' & Hc & Hsub & Hsame). exists m'. repeat split; try done.
    intros Hnd. by eapply sublist_NoDup. }
  assert (Hids : forall g l, (forall f, FileInfo.fileId (g f) = FileInfo.fileId f) ->
            map FileInfo.fileId (map g l) = map FileInfo.fileId l).
  { intros g l Hg. rewrite map_map. by apply map_ext. }
  destruct op; cbn [mutate]; try (by destruct (Hadd fileInfo));
    try (by destruct (Hcopy fileIds targetFolderId));
    unfold removeFileFromManifest, removeFilesFromManifest, renameFile,
      toggleFileFavorite, createFolder, renameFolder, deleteFolder,
      moveFileToFolder, moveFilesToFolder;
    run; rewrite Hm, Hk;
    try match goal with
        | |- context [list_find ?P ?l] =>
            let Hfind := fresh "Hfind" in
            destruct (list_find P l) as [[? ?]|] eqn:Hfind;
            [ apply list_find_Some in Hfind as (Hfind & ? & _)
            | cbn [snd]; exists m; split; [exact Hm|]; split; reflexivity ]
        end;
    after_upload;
    (eexists; split; [exact Hafter|]);
    cbn [Manifest.files Manifest.folders Manifest.with_files Manifest.with_folders
         Manifest.with_updatedAt].
  all: try (split; [apply map_filter_sublist | exact I]).
  all: try (erewrite map_insert_same by (try eassumption; reflexivity);
            split; reflexivity).
  all: try (split; reflexivity).
  all: try (destruct deleteContents;
            cbn [Manifest.files Manifest.folders Manifest.with_files
                 Manifest.with_folders Manifest.with_updatedAt];
            [ split; [apply map_filter_sublist | exact I]
            | rewrite Hids by (intros f; by destruct (decide _)); split; reflexivity ]).
  all: rewrite Hids by (intros f; by destruct (decide _)); split; reflexivity.
Qed.

(** ** Copies that copy nothing *)

Lemma copyEach_absent (config : StorageConfig) (targetFolderId : option string)
    (onProgress : option (nat -> nat -> M unit)) (total : nat)
    (fileIds : list string) (w : World) (m : Manifest.t)
    (acc : list string) (copied : nat) :
  manifestCache w = Some m ->
  Forall (fun fileId => fileId ∉ map FileInfo.fileId (Manifest.files m)) fileIds ->
  copyEach config fileIds targetFolderId onProgress total acc copied w = (Ok acc, w).
Proof.
  intros Hm. induction 1 as [|fileId others Habsent _ IH]; [reflexivity|].
  cbn [copyEach]. run. rewrite Hm, (list_find_absent_file _ _ Habsent). exact IH.
Qed.

(** X22: copying ids of which the manifest holds none does nothing at all:
    the call returns the empty list, fetches nothing, draws no id, never
    calls the progress callback, and leaves [updatedAt], the store and the
    rest of the state as they were.  The empty list of ids is one such
    case. *)
Theorem copyFilesToFolder_absent_ids (config : StorageConfig) (fileIds : list string)
    (targetFolderId : option string) (onProgress : option (nat -> nat -> M unit))
    (w : World) (m : Manifest.t) (masterKey : CryptoKey) :
  manifestCache w = Some m ->
  masterKeyCache w = Some masterKey ->
  Forall (fun fileId => fileId ∉ map FileInfo.fileId (Manifest.files m)) fileIds ->
  copyFilesToFolder config fileIds targetFolderId onProgress w = (Ok [], w).
Proof.
  intros Hm Hk Habsent. unfold copyFilesToFolder. run. rewrite Hm, Hk.
  by rewrite (copyEach_absent _ _ _ _ _ _ _ _ _ Hm Habsent).
Qed.

(** X23: copying a file of the manifest whose content blob is not in the
    store raises the store's not-found error at the fetch, before an id is
    drawn or anything is written: the manifest, the store and the coming
    ids are as before, and the ids after it in the list are not tried. *)
Theorem copyFilesToFolder_missing_blob (config : StorageConfig) (fileId : string)
    (others : list string) (targetFolderId : option string)
    (onProgress : option (nat -> nat -> M unit))
    (w : World) (m : Manifest.t) (masterKey : CryptoKey) (i : nat) (e : FileInfo.t) :
  manifestCache w = Some m ->
  masterKeyCache w = Some masterKey ->
  list_find (fun f => FileInfo.fileId f = fileId) (Manifest.files m) = Some (i, e) ->
  remote w config !! ("files/" ++ fileId) = None ->
  faults w 0%nat = false ->
  exists w',
    copyFilesToFolder config (fileId :: others) targetFolderId onProgress w
      = (Raise NotFound, w') /\
    manifestCache w' = Some m /\
    remote w' = remote w /\
    uuids w' = uuids w /\
    sessionStorage w' = sessionStorage w.
Proof.
  intros Hm Hk Hfind Hblob Hf. unfold copyFilesToFolder. run. rewrite Hm, Hk.
  cbn [copyEach]. run. rewrite Hm, Hfind, Hf. run. rewrite Hblob. run.
  eexists. split; [reflexivity|]. by repeat split.
Qed.


(** ** Key backups without a password, and broken ones *)

(** X24: without a password, or with the empty one, [exportKeyPair] writes
    the key pair in the clear and draws no random byte; such a backup, when
    both keys are non-empty, imports to the pair whatever password is given
    with it, the password being ignored. *)
Theorem plaintext_backup (privateKey publicKey : string) (password : option string)
    (w : World) :
  truthy password = false ->
  privateKey <> "" -> publicKey <> "" ->
  JSON_parse (JSON_stringify 2 (pairData (Some privateKey) (Some publicKey)))
    = Some (pairData (Some privateKey) (Some publicKey)) ->
  exportKeyPair privateKey publicKey password w
    = (Ok (JSON_stringify 2 (pairData (Some privateKey) (Some publicKey))), w) /\
  forall anyPassword w2,
    importKeyPair (JSON_stringify 2 (pairData (Some privateKey) (Some publicKey)))
                  anyPassword w2
      = (Ok (pairData (Some privateKey) (Some publicKey)), w2).
Proof.
  intros Hpw Hpriv Hpub Hparse. split.
  - unfold exportKeyPair. by rewrite Hpw.
  - intros anyPassword w2. unfold importKeyPair. rewrite Hparse. cbn.
    destruct privateKey; [done|]. destruct publicKey; [done|]. reflexivity.
Qed.

(** X25: a backup that is no JSON fails the import with the parser's syntax
    error, and a document marked encrypted that lacks its salt, nonce or
    ciphertext fails it, when a password is given, with a type error; neither
    is reported as "Invalid key file format", and neither changes anything. *)
Theorem importKeyPair_broken (blob : string) (password : option string) (w : World) :
  (JSON_parse (A := KeyData) blob = None ->
   importKeyPair blob password w = (Raise SyntaxError, w)) /\
  (forall keyData,
     JSON_parse blob = Some keyData ->
     truthy_flag (kd_encrypted keyData) = true ->
     truthy password = true ->
     kd_salt keyData = None \/ kd_iv keyData = None \/ kd_data keyData = None ->
     importKeyPair blob password w = (Raise TypeError, w)).
Proof.
  unfold importKeyPair. split.
  - by intros ->.
  - intros keyData -> -> -> Hmissing. cbn [andb]. unfold Buffer_from_hex. run.
    destruct (kd_salt keyData); [|reflexivity].
    destruct (kd_iv keyData); [|reflexivity].
    destruct (kd_data keyData); [|reflexivity].
    by destruct Hmissing as [|[|]].
Qed.

(** ** Generating and storing keys *)

Section KeyGeneration.

Context {ed25519 : Ed25519}.

(** X26: [generateKeyPair] draws 32 random bytes and returns them as 64
    hexadecimal characters, with the public key the signature library gives
    for them.  The hexadecimal text loses nothing: the master key derived
    from the returned private key is the HKDF output for the very bytes
    drawn. *)
Theorem generateKeyPair_then_derive (w : World) :
  let drawn := map (entropy w) (seq 0 32) in
  exists w1,
    generateKeyPair w
      = (Ok (Hex.encode drawn, Hex.encode (ed25519_getPublicKey drawn)), w1) /\
    String.length (Hex.encode drawn) = 64%nat /\
    Hex.decode (Hex.encode drawn) = drawn /\
    (forall i, entropy w1 i = entropy w (32 + i)%nat) /\
    forall w2,
      deriveManifestKeyFromPrivateKey (Hex.encode drawn) w2
        = (Ok {| key_algorithm := "AES-GCM"; key_bits := 256;
                 key_material :=
                   HKDF_SHA256 (repeat Byte.x00 16) (utf8_encode "manifest-encryption")
                               drawn 256 |}, w2).
Proof.
  cbv zeta. unfold generateKeyPair. run. eexists. split; [reflexivity|].
  split; [by rewrite hex_encode_length, length_map, length_seq|].
  split; [apply hex_decode_encode|]. split; [reflexivity|].
  intros w2. unfold deriveManifestKeyFromPrivateKey. run.
  by rewrite hex_decode_encode.
Qed.

End KeyGeneration.

Lemma key_pair_item_inj (a b : string) :
  KEY_PAIR_PREFIX ++ a = KEY_PAIR_PREFIX ++ b -> a = b.
Proof. intros H. cbn in H. by simplify_eq. Qed.

(** X27: a key pair stored for a user is the one read back for that user,
    and the pairs of other users are not touched.  When the browser refuses
    the write, the quota being exceeded, [storeKeyPair] returns as if all
    were well and the pair read back is the one stored before, if any.
    After [clearKeyPair] no pair is read for the user, and the pairs of
    other users still are.  Where there is no window, storing and reading
    keep the exception to themselves, and clearing raises it. *)
Theorem key_pair_storage (userId privateKey publicKey : string)
    (ls : LocalStorage) :
  JSON_stringify 0 (pairData (Some privateKey) (Some publicKey)) <> "" ->
  JSON_parse (JSON_stringify 0 (pairData (Some privateKey) (Some publicKey)))
    = Some (pairData (Some privateKey) (Some publicKey)) ->
  let b' := storeKeyPair userId privateKey publicKey (Some ls) in
  (full ls = false ->
   getKeyPair userId b' = Some (pairData (Some privateKey) (Some publicKey)) /\
   getPrivateKey userId b' = (if decide (privateKey = "") then None else Some privateKey)) /\
  (full ls = true ->
   b' = Some ls /\ getKeyPair userId b' = getKeyPair userId (Some ls)) /\
  (forall other, other <> userId -> getKeyPair other b' = getKeyPair other (Some ls)) /\
  (exists cleared,
     clearKeyPair userId b' = Some cleared /\
     getKeyPair userId cleared = None /\
     getPrivateKey userId cleared = None /\
     forall other, other <> userId ->
       getKeyPair other cleared = getKeyPair other (Some ls)) /\
  storeKeyPair userId privateKey publicKey None = None /\
  getKeyPair userId None = None /\
  clearKeyPair userId None = None.
Proof.
  intros Hnonempty Hparse. cbv zeta.
  unfold clearKeyPair, storeKeyPair, getPrivateKey, getKeyPair, setItem, getItem,
    removeItem.
  destruct (full ls) eqn:Hfull; cbn [items].
  - split; [discriminate|]. split; [done|]. split; [done|]. split; [|done].
    eexists. split; [reflexivity|]. cbn [items]. rewrite lookup_delete_eq.
    repeat split. intros other Hother. rewrite lookup_delete_ne; [reflexivity|].
    intros Heq. by apply Hother, key_pair_item_inj.
  - split; [|split; [discriminate|split; [|split; [|done]]]].
    + intros _. rewrite lookup_insert_eq.
      destruct (JSON_stringify 0 _) as [|a r] eqn:Htext; [done|].
      rewrite Hparse. cbn. split; [reflexivity|].
      by destruct privateKey.
    + intros other Hother. rewrite lookup_insert_ne; [reflexivity|].
      intros Heq. by apply Hother, key_pair_item_inj.
    + eexists. split; [reflexivity|]. cbn [items]. rewrite lookup_delete_eq.
      repeat split. intros other Hother.
      rewrite lookup_delete_ne, lookup_insert_ne; [reflexivity| |];
        intros Heq; by apply Hother, key_pair_item_inj.
Qed.

(** ** The stored configuration *)

Section StoredConfiguration.

Context {JSON_StorageConfig : JSON StorageConfig}.

(** X28: a storage configuration saved in a browser that takes the write is
    the one read back, and it counts as configured exactly when its
    endpoint, bucket, access key id and secret access key are all non-empty;
    region, provider and account id are not asked for.  Outside a browser
    saving does nothing, nothing is read, and nothing counts as configured;
    after [clearStorageConfig] nothing is configured either. *)
Theorem saveStorageConfig_then_get (config : StorageConfig) (ls : LocalStorage) :
  full ls = false ->
  JSON_stringify 0 config <> "" ->
  JSON_parse (JSON_stringify 0 config) = Some config ->
  let b' := saveStorageConfig config (Some ls) in
  getStorageConfig b' = Some config /\
  (isStorageConfigured b' = true <->
     endpoint config <> "" /\ bucket config <> "" /\
     accessKeyId config <> "" /\ secretAccessKey config <> "") /\
  getStorageConfig (clearStorageConfig b') = None /\
  isStorageConfigured (clearStorageConfig b') = false /\
  saveStorageConfig config None = None /\
  getStorageConfig None = None /\
  isStorageConfigured None = false.
Proof.
  intros Hfull Hnonempty Hparse. cbv zeta.
  assert (Hget : getStorageConfig (saveStorageConfig config (Some ls)) = Some config).
  { unfold saveStorageConfig, getStorageConfig, setItem, getItem. rewrite Hfull.
    cbn [items]. rewrite lookup_insert_eq.
    by destruct (JSON_stringify 0 config) as [|a r] eqn:Htext. }
  split; [exact Hget|]. split.
  { unfold isStorageConfigured. rewrite Hget.
    destruct (endpoint config), (bucket config), (accessKeyId config),
      (secretAccessKey config); cbn; split; try done;
      intros (? & ? & ? & ?); done. }
  assert (Hclear : getStorageConfig (clearStorageConfig (saveStorageConfig config (Some ls)))
                   = None).
  { unfold clearStorageConfig, saveStorageConfig, getStorageConfig, setItem, removeItem,
      getItem. rewrite Hfull. cbn [items]. by rewrite lookup_delete_eq. }
  split; [exact Hclear|]. split; [|by repeat split].
  unfold isStorageConfigured. by rewrite Hclear.
Qed.

End StoredConfiguration.


(** ** Renaming, moving and listing favorites *)

Lemma list_find_insert_other_id (fileId other : string) (l : list FileInfo.t)
    (i : nat) (e e' : FileInfo.t) :
  l !! i = Some e ->
  FileInfo.fileId e = fileId -> FileInfo.fileId e' = fileId ->
  other <> fileId ->
  snd <$> list_find (fun f => FileInfo.fileId f = other) (<[i := e']> l)
  = snd <$> list_find (fun f => FileInfo.fileId f = other) l.
Proof.
  intros Hl He He' Hother. revert i Hl.
  induction l as [|x l IH]; intros [|i] Hl; try discriminate.
  - injection Hl as ->. cbn. rewrite !decide_False by congruence. reflexivity.
  - cbn. destruct (decide (FileInfo.fileId x = other)); [reflexivity|].
    rewrite <- !option_fmap_compose.
    change (snd ∘ prod_map S id) with (@snd nat FileInfo.t). by apply IH.
Qed.

(** X29: [renameFile] and [moveFileToFolder] change one field of one entry,
    the first with the id.  A lookup by the id afterwards returns that entry
    with the new name, or the new folder, and all else as it was; lookups by
    other ids are as before; the count of files is the same.  The new name
    may be empty or taken, and the folder need not exist. *)
Theorem rename_move_then_lookup (config : StorageConfig) (fileId : string)
    (w : World) (m : Manifest.t) (masterKey : CryptoKey) (i : nat) (e : FileInfo.t) :
  manifestCache w = Some m ->
  masterKeyCache w = Some masterKey ->
  list_find (fun f => FileInfo.fileId f = fileId) (Manifest.files m) = Some (i, e) ->
  (forall newName,
     let w' := snd (renameFile config fileId newName w) in
     fst (getFileFromManifest fileId w') = Ok (Some (FileInfo.with_fileName newName e)) /\
     (forall other, other <> fileId ->
        fst (getFileFromManifest other w') = fst (getFileFromManifest other w)) /\
     exists m', manifestCache w' = Some m' /\
                length (Manifest.files m') = length (Manifest.files m)) /\
  (forall folderId,
     let w' := snd (moveFileToFolder config fileId folderId w) in
     fst (getFileFromManifest fileId w') = Ok (Some (FileInfo.with_folderId folderId e)) /\
     (forall other, other <> fileId ->
        fst (getFileFromManifest other w') = fst (getFileFromManifest other w)) /\
     exists m', manifestCache w' = Some m' /\
                length (Manifest.files m') = length (Manifest.files m)).
Proof.
  intros Hm Hk Hfind.
  pose proof Hfind as Hfound. apply list_find_Some in Hfound as (Hl & He & _).
  split; intros arg; cbv zeta; unfold renameFile, moveFileToFolder; run;
    rewrite Hm, Hk, Hfind; after_upload.
  all: unfold getFileFromManifest, getManifest; run; rewrite Hafter, Hm;
    cbn [Manifest.files Manifest.with_files Manifest.with_updatedAt].
  all: split; [by erewrite list_find_insert_same_id by (try eassumption; exact He)|].
  all: split; [intros other Hother;
               by erewrite list_find_insert_other_id by (try eassumption; exact He)|].
  all: eexists; split; [reflexivity|];
    cbn [Manifest.files Manifest.with_files Manifest.with_updatedAt];
    by rewrite length_insert.
Qed.

(** X30: [getFavoriteFiles] lists exactly the entries of the cached manifest
    whose favorite flag is set, later uploads first, and changes nothing;
    after [toggleFileFavorite] the toggled entry is in the list exactly when
    the flag it now carries is set. *)
Theorem getFavoriteFiles_lists (config : StorageConfig) (w : World) (m : Manifest.t)
    (masterKey : CryptoKey) :
  manifestCache w = Some m ->
  masterKeyCache w = Some masterKey ->
  (exists favorites,
     getFavoriteFiles w = (Ok favorites, w) /\
     (forall f, f ∈ favorites <-> f ∈ Manifest.files m /\ FileInfo.isFavorite f = true) /\
     StronglySorted (fun a b => FileInfo.uploadedAt b <= FileInfo.uploadedAt a) favorites) /\
  (forall fileId i e,
     list_find (fun f => FileInfo.fileId f = fileId) (Manifest.files m) = Some (i, e) ->
     let toggled := FileInfo.with_isFavorite (negb (FileInfo.isFavorite e)) e in
     let w' := snd (toggleFileFavorite config fileId w) in
     exists favorites,
       fst (getFavoriteFiles w') = Ok favorites /\
       (toggled ∈ favorites <-> FileInfo.isFavorite e = false)).
Proof.
  intros Hm Hk. split.
  - unfold getFavoriteFiles, getManifest. run. rewrite Hm. eexists.
    split; [reflexivity|]. split.
    + intros f. rewrite (Array_sort_perm _ _), list_elem_of_filter. tauto.
    + apply (Array_sort_sorted FileInfo.uploadedAt).
  - intros fileId i e Hfind. cbv zeta.
    pose proof Hfind as Hfound. apply list_find_Some in Hfound as (Hl & He & _).
    unfold toggleFileFavorite. run. rewrite Hm, Hk, Hfind.
    match goal with
    | |- context [sealAndUpload config ?c masterKey ?w0] =>
        destruct (sealAndUpload_cases config c masterKey w0)
          as (r & w' & Hs & Hr & Hcache & _); rewrite Hs; simpl_world Hcache
    end.
    assert (Hw' : forall A (x : A) (k : Error -> Result A),
              snd (match r with Ok _ => (Ok x, w') | Raise e0 => (k e0, w') end) = w')
      by (intros; by destruct r).
    rewrite Hw'. unfold getFavoriteFiles, getManifest. run. rewrite Hcache.
    cbn [Manifest.files Manifest.with_files Manifest.with_updatedAt].
    eexists. split; [reflexivity|].
    rewrite (Array_sort_perm _ _), list_elem_of_filter.
    split.
    + intros [Hfav _]. cbn in Hfav. by destruct (FileInfo.isFavorite e).
    + intros Hflag. split; [cbn; by rewrite Hflag|].
      apply list_elem_of_lookup. exists i. apply list_lookup_insert_eq.
      by eapply lookup_lt_Some.
Qed.

End Properties.

(** * The engine on concrete inputs *)

#[local] Existing Instances Toy.crypto Toy.JSON_Manifest Toy.JSON_KeyData.

Lemma toy_unseal_seal (key iv plaintext : bytes) :
  Toy.unseal key iv (Toy.seal key iv plaintext) = Some plaintext.
Proof.
  unfold Toy.unseal, Toy.seal. rewrite <- length_app, app_assoc.
  rewrite take_app_length, drop_app_length. by rewrite decide_True.
Qed.

Lemma toy_pos_of_bits_of_pos (p : positive) :
  Toy.pos_of_bits (Toy.bits_of_pos p) = Some p.
Proof. induction p as [p IH|p IH|]; cbn; [rewrite IH..|]; reflexivity. Qed.

Lemma toy_json_parse_stringify `{Countable A} (space : nat) (a : A) :
  JSON_parse (JSON := Toy.json A) (JSON_stringify (JSON := Toy.json A) space a) = Some a.
Proof. cbn. rewrite toy_pos_of_bits_of_pos. cbn. apply decode_encode. Qed.

Example addCopySuffix_examples :
  addCopySuffix "a.txt" = "a (copy).txt" /\
  addCopySuffix "archive.tar.gz" = "archive.tar (copy).gz" /\
  addCopySuffix "README" = "README (copy)".
Proof. repeat split. Qed.

Example toy_backup_parses : JSON_parse Toy.backup = Some Toy.backupData.
Proof. apply (toy_json_parse_stringify 2 Toy.backupData). Qed.

(** ** Where the specification's sentences fail *)

(** C1 as the specification words it does not hold: with the manifest
    unlocked and the fetch failing, [syncManifest] returns [null] and not the
    manifest known before. *)
Lemma syncManifest_returns_null_on_failure :
  let w := Toy.unlocked [true] [] [] in
  masterKeyCache w = Some Toy.masterKey /\
  manifestCache w = Some Toy.manifest /\
  fst (downloadFromStorage Toy.config MANIFEST_KEY w) = Raise TransportError /\
  fst (syncManifest Toy.config w) = Ok None /\
  fst (syncManifest Toy.config w) <> Ok (manifestCache w).
Proof. cbv zeta. repeat split. discriminate. Qed.

(** C2 as the specification words it does not hold: the backup exported
    under "pw" and imported with no password fails with the invalid-format
    error, not with the wrong-password error. *)
Lemma importKeyPair_without_password :
  let w := Toy.world [] [] [] in
  fst (exportKeyPair Toy.privateKey Toy.publicKey (Some "pw") w) = Ok Toy.backup /\
  fst (importKeyPair Toy.backup None w) = Raise (JsError "Invalid key file format") /\
  fst (importKeyPair Toy.backup None w)
    <> Raise (JsError "Failed to decrypt keys. Wrong password?").
Proof.
  cbv zeta.
  assert (H : fst (importKeyPair Toy.backup None (Toy.world [] [] []))
              = Raise (JsError "Invalid key file format")).
  { unfold importKeyPair. rewrite toy_backup_parses. reflexivity. }
  split; [reflexivity|]. split; [exact H|]. rewrite H. discriminate.
Qed.

(** C3 as the specification words it does not hold: copying an empty list
    of files is a mutation that ends well and leaves [updatedAt] where it
    was. *)
Lemma copy_of_nothing_keeps_updatedAt :
  let w := Toy.unlocked [] [] [] in
  let w' := snd (mutate Toy.config (CopyFiles [] None) w) in
  manifestCache w = Some Toy.manifest /\
  masterKeyCache w = Some Toy.masterKey /\
  fst (mutate Toy.config (CopyFiles [] None) w) = Ok tt /\
  updatedAtOf w = Some 101 /\
  updatedAtOf w' = Some 101 /\
  ~ (101 < 101).
Proof. cbv zeta. repeat split. lia. Qed.

(** The clock's resolution is a second reason: a mutation made while the
    clock still reads the manifest's [updatedAt] leaves it equal. *)
Example addFile_within_the_same_millisecond :
  let w := Toy.unlocked [] [101] [] in
  fst (mutate Toy.config (AddFile Toy.file_c) w) = Ok tt /\
  updatedAtOf w = Some 101 /\
  updatedAtOf (snd (mutate Toy.config (AddFile Toy.file_c) w)) = Some 101.
Proof. cbv zeta. repeat split. Qed.



(** ** The theorems at concrete inputs *)

Lemma syncManifest_soft_fail_witness :
  let w := Toy.unlocked [true] [] [] in
  exists w',
    syncManifest Toy.config w = (Ok None, w') /\
    manifestCache w' = manifestCache w /\
    masterKeyCache w' = masterKeyCache w /\
    sessionStorage w' = sessionStorage w.
Proof.
  cbv zeta.
  apply (syncManifest_soft_fail Toy.config Toy.masterKey (Toy.unlocked [true] [] [])).
  - reflexivity.
  - left. eexists _, _. reflexivity.
Defined.

Lemma importKeyPair_wrong_password_iff_witness :
  JSON_parse Toy.backup = Some Toy.backupData /\
  fst (importKeyPair Toy.backup None (Toy.world [] [] []))
    = Raise (JsError "Invalid key file format").
Proof.
  split; [exact toy_backup_parses|].
  exact (proj2 (importKeyPair_wrong_password_iff Toy.backup None Toy.backupData
                  (Toy.world [] [] []) toy_backup_parses) eq_refl eq_refl).
Defined.

Lemma mutate_updatedAt_witness :
  let w := Toy.unlocked [] [] [] in
  let w' := snd (mutate Toy.config (RemoveFile "f1") w) in
  mutate Toy.config (RemoveFile "f1") w = (Ok tt, w') /\
  exists m',
    manifestCache w' = Some m' /\ Manifest.updatedAt Toy.manifest < Manifest.updatedAt m'.
Proof.
  cbv zeta.
  assert (Hrun : mutate Toy.config (RemoveFile "f1") (Toy.unlocked [] [] [])
                 = (Ok tt, snd (mutate Toy.config (RemoveFile "f1") (Toy.unlocked [] [] []))))
    by reflexivity.
  split; [exact Hrun|].
  destruct (mutate_updatedAt Toy.config (RemoveFile "f1") (Toy.unlocked [] [] []) _
              Toy.manifest Toy.masterKey eq_refl eq_refl Hrun) as (m' & Hc & _ & Hlater).
  exists m'. split; [exact Hc|].
  destruct Hlater as [Hlt | (ids & t & Hop & _)].
  - intros n. cbn. destruct n; cbn; lia.
  - exact Hlt.
  - discriminate Hop.
Defined.


Lemma deleteFolder_keeps_files_witness :
  let w := Toy.unlocked [] [] [] in
  let w' := snd (deleteFolder Toy.config "d1" false w) in
  exists m',
    manifestCache w' = Some m' /\
    fst (deleteFolder Toy.config "d1" false w) = Ok [] /\
    length (Manifest.files m') = 3%nat /\
    exists e', fst (getFileFromManifest "f1" w') = Ok (Some e') /\
               FileInfo.folderId e' <> Some "d1".
Proof.
  cbv zeta.
  destruct (deleteFolder_keeps_files Toy.config "d1" (Toy.unlocked [] [] [])
              Toy.manifest Toy.masterKey eq_refl eq_refl)
    as (m' & Hc & Hrun & _ & _ & _ & Hlen & Hmembers).
  exists m'. split; [exact Hc|]. split; [exact (Hrun eq_refl)|]. split; [exact Hlen|].
  destruct (Hmembers Toy.file_a) as (_ & e' & Hget & _ & Hout & _).
  - cbn. apply elem_of_cons. by left.
  - reflexivity.
  - exists e'. split; [exact Hget | exact Hout].
Defined.

Lemma export_import_roundtrip_witness :
  exists blob w1,
    exportKeyPair Toy.privateKey Toy.publicKey (Some "pw") (Toy.world [] [] [])
      = (Ok blob, w1) /\
    forall w2,
      importKeyPair blob (Some "pw") w2
        = (Ok (pairData (Some Toy.privateKey) (Some Toy.publicKey)), w2).
Proof.
  apply (export_import_roundtrip (crypto := Toy.crypto) (JSON_KeyData := Toy.JSON_KeyData)
           toy_unseal_seal (fun space d => toy_json_parse_stringify space d)).
  left. discriminate.
Defined.


Lemma deleteFolder_not_recursive_witness :
  exists m',
    manifestCache (snd (deleteFolder Toy.config "d1" true (Toy.unlocked [] [] [])))
      = Some m' /\
    Toy.sub ∈ Manifest.folders m' /\
    Toy.file_b ∈ Manifest.files m'.
Proof.
  destruct (deleteFolder_not_recursive Toy.config "d1" true (Toy.unlocked [] [] [])
              Toy.manifest Toy.masterKey eq_refl eq_refl)
    as (m' & Hc & _ & Hfolders & _ & _ & _ & Hsubfiles).
  exists m'. split; [exact Hc|]. split.
  - apply Hfolders; [|discriminate]. cbn. rewrite !elem_of_cons. auto.
  - apply (Hsubfiles Toy.sub Toy.file_b); try reflexivity; try discriminate;
      cbn; rewrite !elem_of_cons; auto.
Defined.

Lemma getFilesFromManifest_sorted_fresh_witness :
  let w := Toy.unlocked [] [] [] in
  exists sorted,
    getFilesFromManifest w = (Ok sorted, w) /\
    sorted ≡ₚ Manifest.files Toy.manifest /\
    StronglySorted (fun a b => FileInfo.uploadedAt b <= FileInfo.uploadedAt a) sorted /\
    manifestCache w = Some Toy.manifest.
Proof.
  cbv zeta.
  exact (getFilesFromManifest_sorted_fresh (Toy.unlocked [] [] []) Toy.manifest eq_refl).
Defined.

Example importKeyPair_wrong_password :
  fst (importKeyPair Toy.backup (Some "wrong") (Toy.world [] [] []))
    = Raise (JsError "Failed to decrypt keys. Wrong password?") /\
  fst (importKeyPair Toy.backup (Some "pw") (Toy.world [] [] []))
    = Ok (pairData (Some Toy.privateKey) (Some Toy.publicKey)).
Proof.
  unfold importKeyPair. rewrite toy_backup_parses. split; reflexivity.
Qed.

Example getFilesFromManifest_newest_first :
  fst (getFilesFromManifest (Toy.unlocked [] [] []))
    = Ok [Toy.file_b; Toy.file_c; Toy.file_a].
Proof. reflexivity. Qed.

(** ** The further properties at concrete inputs *)

Lemma toy_manifest_text_nonempty :
  JSON_stringify (JSON := Toy.JSON_Manifest) 0 Toy.manifest <> "".
Proof.
  intros H.
  assert (Hparse : JSON_parse (JSON := Toy.JSON_Manifest)
                     (JSON_stringify (JSON := Toy.JSON_Manifest) 0 Toy.manifest)
                   = Some Toy.manifest)
    by apply (toy_json_parse_stringify 0%nat Toy.manifest).
  rewrite H in Hparse. vm_compute in Hparse. discriminate Hparse.
Qed.

Lemma not_in_toy_files (fileId : string) :
  fileId <> "f1" -> fileId <> "f2" -> fileId <> "f3" ->
  fileId ∉ map FileInfo.fileId (Manifest.files Toy.manifest).
Proof.
  intros H1 H2 H3. cbn. rewrite !elem_of_cons, elem_of_nil. intros [|[|[|[]]]]; done.
Qed.

Lemma mutate_locked_witness :
  mutate Toy.config (AddFile Toy.file_c) (Toy.world [] [] [])
    = (Raise (JsError "Manifest not unlocked"), Toy.world [] [] []).
Proof. apply mutate_locked. by left. Defined.

Lemma missing_id_raises_witness :
  toggleFileFavorite Toy.config "nope" (Toy.unlocked [] [] [])
    = (Raise (JsError "File not found"), Toy.unlocked [] [] []) /\
  renameFolder Toy.config "nope" "New" (Toy.unlocked [] [] [])
    = (Raise (JsError "Folder not found"), Toy.unlocked [] [] []).
Proof.
  destruct (missing_id_raises Toy.config (Toy.unlocked [] [] []) Toy.manifest
              Toy.masterKey eq_refl eq_refl) as [Hfile Hfolder].
  split.
  - apply Hfile. by apply not_in_toy_files.
  - apply Hfolder. cbn. rewrite !elem_of_cons, elem_of_nil. intros [|[|[]]]; done.
Defined.

Lemma toggleFileFavorite_twice_witness :
  let w := Toy.unlocked [] [] [] in
  let w1 := snd (toggleFileFavorite Toy.config "f1" w) in
  let w2 := snd (toggleFileFavorite Toy.config "f1" w1) in
  (exists m2, manifestCache w2 = Some m2 /\
              Manifest.files m2 = Manifest.files Toy.manifest) /\
  fst (toggleFileFavorite Toy.config "f1" w) = Ok true /\
  fst (toggleFileFavorite Toy.config "f1" w1) = Ok false.
Proof.
  cbv zeta.
  destruct (toggleFileFavorite_twice Toy.config "f1" (Toy.unlocked [] [] [])
              Toy.manifest Toy.masterKey 0%nat Toy.file_a eq_refl eq_refl eq_refl)
    as [(m2 & Hc & Hfiles & _) Hret].
  split; [exists m2; split; [exact Hc | exact Hfiles]|]. exact (Hret eq_refl eq_refl).
Defined.

Lemma addFile_then_lookup_witness :
  let duplicate := FileInfo.with_fileName "other.txt" Toy.file_a in
  let w' := snd (addFileToManifest Toy.config duplicate (Toy.unlocked [] [] [])) in
  fst (getFileFromManifest "f1" w') = Ok (Some Toy.file_a).
Proof.
  cbv zeta.
  exact (proj1 (proj2 (addFile_then_lookup Toy.config
                         (FileInfo.with_fileName "other.txt" Toy.file_a)
                         (Toy.unlocked [] [] []) Toy.manifest Toy.masterKey
                         eq_refl eq_refl))).
Defined.

Lemma removeFile_then_lookup_witness :
  let w' := snd (removeFileFromManifest Toy.config "f1" (Toy.unlocked [] [] [])) in
  fst (getFileFromManifest "f1" w') = Ok None.
Proof.
  cbv zeta.
  exact (proj1 (removeFile_then_lookup Toy.config "f1" (Toy.unlocked [] [] [])
                  Toy.manifest Toy.masterKey eq_refl eq_refl)).
Defined.

Lemma addFile_then_removeFile_witness :
  let added := FileInfo.mk "f9" "new.bin" 1 "application/octet-stream" None false 99
                           "key-n" "nonce-n" in
  let w1 := snd (addFileToManifest Toy.config added (Toy.unlocked [] [] [])) in
  let w2 := snd (removeFileFromManifest Toy.config "f9" w1) in
  exists m2, manifestCache w2 = Some m2 /\
             Manifest.files m2 = Manifest.files Toy.manifest.
Proof.
  cbv zeta.
  destruct (addFile_then_removeFile Toy.config
              (FileInfo.mk "f9" "new.bin" 1 "application/octet-stream" None false 99
                           "key-n" "nonce-n")
              (Toy.unlocked [] [] []) Toy.manifest Toy.masterKey eq_refl eq_refl)
    as (m2 & Hc & Hfiles & _).
  - by apply not_in_toy_files.
  - exists m2. split; [exact Hc | exact Hfiles].
Defined.

Lemma addFile_upload_failure_witness :
  exists w' m',
    addFileToManifest Toy.config Toy.file_c (Toy.unlocked [true] [] [])
      = (Raise TransportError, w') /\
    manifestCache w' = Some m' /\
    length (Manifest.files m') = 4%nat /\
    remote w' = remote (Toy.unlocked [true] [] []).
Proof.
  destruct (addFile_upload_failure Toy.config Toy.file_c (Toy.unlocked [true] [] [])
              Toy.manifest Toy.masterKey eq_refl eq_refl eq_refl)
    as (w' & m' & Hrun & Hc & Hfiles & _ & Hremote & _).
  exists w', m'. split; [exact Hrun|]. split; [exact Hc|].
  split; [rewrite Hfiles; reflexivity | exact Hremote].
Defined.

Lemma mutate_in_sync_witness :
  let w := Toy.unlocked [] [] [] in
  in_sync Toy.config (snd (mutate Toy.config (RenameFile "f1" "b.txt") w)).
Proof.
  cbv zeta.
  destruct (mutate_in_sync Toy.config (RenameFile "f1" "b.txt") (Toy.unlocked [] [] [])
              (snd (mutate Toy.config (RenameFile "f1" "b.txt") (Toy.unlocked [] [] [])))
              Toy.manifest Toy.masterKey eq_refl eq_refl eq_refl)
    as [Hsync | [_ (ids & t & Hop)]].
  - exact Hsync.
  - discriminate Hop.
Defined.

Lemma initializeManifest_overwrites_witness :
  exists w',
    initializeManifest Toy.config Toy.privateKey Toy.stored = (Ok tt, w') /\
    manifestCache w' = Some (Manifest.mk 1 [] [] 1000 1001) /\
    in_sync Toy.config w'.
Proof.
  destruct (initializeManifest_overwrites Toy.config Toy.privateKey Toy.stored eq_refl)
    as (w' & k & Hrun & _ & Hc & _ & Hsync & _).
  exists w'. split; [exact Hrun|]. split; [exact Hc | exact Hsync].
Defined.


Lemma decryptManifest_encryptManifest_witness :
  exists blob w1,
    encryptManifest Toy.manifest Toy.masterKey (Toy.world [] [] []) = (Ok blob, w1) /\
    forall w2, decryptManifest blob Toy.masterKey w2 = (Ok Toy.manifest, w2).
Proof.
  destruct (decryptManifest_encryptManifest (crypto := Toy.crypto)
              (JSON_Manifest := Toy.JSON_Manifest) toy_unseal_seal
              (fun m => toy_json_parse_stringify 0%nat m)
              Toy.manifest Toy.masterKey (Toy.world [] [] []))
    as (blob & w1 & Hseal & _ & Hopen).
  exists blob, w1. split; [exact Hseal | exact Hopen].
Defined.

Lemma syncManifest_adopts_remote_witness :
  exists w',
    syncManifest Toy.config Toy.behind = (Ok (Some Toy.newer), w') /\
    manifestCache w' = Some Toy.newer.
Proof.
  destruct (syncManifest_adopts_remote (crypto := Toy.crypto)
              (JSON_Manifest := Toy.JSON_Manifest) toy_unseal_seal
              (fun m => toy_json_parse_stringify 0%nat m)
              Toy.config Toy.behind Toy.masterKey Toy.iv12 Toy.newer
              eq_refl eq_refl eq_refl eq_refl)
    as (w' & Hrun & Hc & _).
  exists w'. split; [exact Hrun | exact Hc].
Defined.

Lemma unlockManifest_opens_witness :
  exists w',
    unlockManifest Toy.config Toy.privateKey Toy.stored = (Ok Toy.manifest, w') /\
    manifestCache w' = Some Toy.manifest /\
    masterKeyCache w' = Some Toy.derivedKey.
Proof.
  destruct (unlockManifest_opens (crypto := Toy.crypto)
              (JSON_Manifest := Toy.JSON_Manifest) toy_unseal_seal
              (fun m => toy_json_parse_stringify 0%nat m)
              Toy.config Toy.privateKey Toy.stored Toy.derivedKey Toy.iv12 Toy.manifest
              eq_refl eq_refl eq_refl eq_refl)
    as [(w' & Hrun & Hc & Hk & _) _].
  exists w'. split; [exact Hrun|]. split; [exact Hc | exact Hk].
Defined.

Lemma lockManifest_forgets_witness :
  let w := set_sessionStorage
             (Some (<[SESSION_UNLOCKED_KEY := "true"]>
                      (<[SESSION_CACHE_KEY := JSON_stringify 0 Toy.manifest]>
                         {[ "theme" := "dark" ]})))
             (Toy.unlocked [] [] []) in
  let w' := snd (lockManifest (ret tt) w) in
  fst (isManifestUnlocked w) = Ok true /\
  manifestCache w' = None /\
  masterKeyCache w' = None /\
  getManifest w' = (Ok None, w') /\
  exists s',
    sessionStorage w' = Some s' /\
    s' !! SESSION_CACHE_KEY = None /\
    s' !! SESSION_UNLOCKED_KEY = None /\
    s' !! "theme" = Some "dark".
Proof.
  cbv zeta.
  set (text := JSON_stringify 0 Toy.manifest).
  set (s := <[SESSION_UNLOCKED_KEY := "true"]>
              (<[SESSION_CACHE_KEY := text]> {[ "theme" := "dark" ]})).
  destruct (lockManifest_forgets (JSON_Manifest := Toy.JSON_Manifest) (ret tt)
              (set_sessionStorage (Some s) (Toy.unlocked [] [] []))
              (fun w0 => eq_refl))
    as (_ & Hc & Hk & _ & Hsession & _ & _ & _ & _ & _ & Hget & _).
  split; [reflexivity|]. split; [exact Hc|]. split; [exact Hk|]. split; [exact Hget|].
  exists (delete SESSION_UNLOCKED_KEY (delete SESSION_CACHE_KEY s)).
  split; [reflexivity|].
  destruct (Hsession (delete SESSION_UNLOCKED_KEY (delete SESSION_CACHE_KEY s)) eq_refl)
    as (Hcache & Hunlocked & s0 & Hs & Hother).
  split; [exact Hcache|]. split; [exact Hunlocked|].
  rewrite (Hother "theme") by discriminate.
  change (Some s = Some s0) in Hs.
  assert (Heq : s0 = s) by congruence. rewrite Heq. reflexivity.
Defined.

Lemma getManifest_after_reload_witness :
  exists w',
    getManifest Toy.reloaded_tab = (Ok (Some Toy.manifest), w') /\
    fst (isManifestUnlocked w') = Ok true /\
    mutate Toy.config (RemoveFile "f1") w'
      = (Raise (JsError "Manifest not unlocked"), w').
Proof.
  destruct (getManifest_after_reload (crypto := Toy.crypto)
              (JSON_Manifest := Toy.JSON_Manifest) Toy.manifest Toy.reloaded_tab)
    as (_ & w' & Hget & _ & _ & Hunlocked & _ & Hmutate).
  - split; [reflexivity|]. split; [reflexivity|]. eexists. split; [reflexivity|].
    split; reflexivity.
  - exact toy_manifest_text_nonempty.
  - apply (toy_json_parse_stringify 0%nat Toy.manifest).
  - exists w'. split; [exact Hget|]. split; [exact Hunlocked | apply Hmutate].
Defined.

Lemma deleteFolder_with_contents_witness :
  let w := Toy.unlocked [] [] [] in
  fst (deleteFolder Toy.config "d1" true w) = Ok ["f1"] /\
  remote (snd (deleteFolder Toy.config "d1" true w)) Toy.config !! "files/f1"
    = Some Toy.blob_a.
Proof.
  cbv zeta.
  destruct (deleteFolder_with_contents Toy.config "d1" (Toy.unlocked [] [] [])
              Toy.manifest Toy.masterKey eq_refl eq_refl)
    as (_ & Hret & _ & Hkeys).
  split; [exact (Hret eq_refl)|].
  rewrite (Hkeys "files/f1") by discriminate. reflexivity.
Defined.

Lemma deleteFolder_then_list_witness :
  let w' := snd (deleteFolder Toy.config "d1" false (Toy.unlocked [] [] [])) in
  getFilesInFolder (Some "d1") w' = (Ok [], w').
Proof.
  cbv zeta.
  exact (proj1 (deleteFolder_then_list Toy.config "d1" false (Toy.unlocked [] [] [])
                  Toy.manifest Toy.masterKey eq_refl eq_refl)).
Defined.

Lemma createFolder_then_list_witness :
  let w := Toy.unlocked [] [700] ["d3"] in
  let w' := snd (createFolder Toy.config "Deep" (Some "d2") None w) in
  fst (createFolder Toy.config "Deep" (Some "d2") None w)
    = Ok (Folder.mk "d3" "Deep" (Some "d2") 700 None) /\
  fst (getFoldersInFolder (Some "d2") w')
    = Ok [Folder.mk "d3" "Deep" (Some "d2") 700 None].
Proof.
  cbv zeta.
  destruct (createFolder_then_list Toy.config "Deep" (Some "d2") None
              (Toy.unlocked [] [700] ["d3"]) Toy.manifest Toy.masterKey eq_refl eq_refl)
    as (Hret & _ & Hlist & _).
  split; [exact (Hret eq_refl) | exact Hlist].
Defined.


Lemma mutate_file_ids_witness :
  exists m',
    manifestCache (snd (mutate Toy.config (DeleteFolder "d1" true)
                               (Toy.unlocked [] [] []))) = Some m' /\
    map FileInfo.fileId (Manifest.files m')
      `sublist_of` map FileInfo.fileId (Manifest.files Toy.manifest).
Proof.
  destruct (mutate_file_ids Toy.config (DeleteFolder "d1" true) (Toy.unlocked [] [] [])
              Toy.manifest Toy.masterKey eq_refl eq_refl)
    as (m' & Hc & Hsub & _).
  - discriminate.
  - discriminate.
  - exists m'. split; [exact Hc | exact Hsub].
Defined.

Lemma copyFilesToFolder_absent_ids_witness :
  copyFilesToFolder Toy.config ["nope"; "gone"] None None (Toy.unlocked [] [] [])
    = (Ok [], Toy.unlocked [] [] []).
Proof.
  apply (copyFilesToFolder_absent_ids Toy.config ["nope"; "gone"] None None
           (Toy.unlocked [] [] []) Toy.manifest Toy.masterKey eq_refl eq_refl).
  repeat constructor; by apply not_in_toy_files.
Defined.

Lemma copyFilesToFolder_missing_blob_witness :
  exists w',
    copyFilesToFolder Toy.config ["f2"; "f1"] None None (Toy.unlocked [] [] [])
      = (Raise NotFound, w') /\
    manifestCache w' = Some Toy.manifest.
Proof.
  destruct (copyFilesToFolder_missing_blob Toy.config "f2" ["f1"] None None
              (Toy.unlocked [] [] []) Toy.manifest Toy.masterKey 1%nat Toy.file_b
              eq_refl eq_refl eq_refl eq_refl eq_refl)
    as (w' & Hrun & Hc & _).
  exists w'. split; [exact Hrun | exact Hc].
Defined.

Lemma plaintext_backup_witness :
  importKeyPair
    (JSON_stringify 2 (pairData (Some Toy.privateKey) (Some Toy.publicKey)))
    (Some "not needed") (Toy.world [] [] [])
  = (Ok (pairData (Some Toy.privateKey) (Some Toy.publicKey)), Toy.world [] [] []).
Proof.
  refine (proj2 (plaintext_backup (JSON_KeyData := Toy.JSON_KeyData)
                   Toy.privateKey Toy.publicKey (Some "") (Toy.world [] [] [])
                   eq_refl _ _ _) (Some "not needed") (Toy.world [] [] [])).
  - discriminate.
  - discriminate.
  - apply (toy_json_parse_stringify 2%nat).
Defined.

Lemma toy_pair_text_nonempty :
  JSON_stringify (JSON := Toy.JSON_KeyData) 0
    (pairData (Some Toy.privateKey) (Some Toy.publicKey)) <> "".
Proof.
  intros H.
  assert (Hparse : JSON_parse (JSON := Toy.JSON_KeyData)
                     (JSON_stringify (JSON := Toy.JSON_KeyData) 0
                        (pairData (Some Toy.privateKey) (Some Toy.publicKey)))
                   = Some (pairData (Some Toy.privateKey) (Some Toy.publicKey)))
    by apply (toy_json_parse_stringify 0%nat).
  rewrite H in Hparse. vm_compute in Hparse. discriminate Hparse.
Qed.

Lemma key_pair_storage_witness :
  let b' := storeKeyPair "alice" Toy.privateKey Toy.publicKey (Some Toy.browser) in
  getKeyPair "alice" b' = Some (pairData (Some Toy.privateKey) (Some Toy.publicKey)) /\
  getKeyPair "bob" b' = None.
Proof.
  cbv zeta.
  destruct (key_pair_storage (JSON_KeyData := Toy.JSON_KeyData)
              "alice" Toy.privateKey Toy.publicKey Toy.browser
              toy_pair_text_nonempty (toy_json_parse_stringify 0%nat _))
    as (Hstored & _ & Hothers & _).
  split; [exact (proj1 (Hstored eq_refl))|].
  rewrite (Hothers "bob") by discriminate. reflexivity.
Defined.

Lemma toy_config_text_nonempty :
  JSON_stringify (JSON := Toy.JSON_StorageConfig) 0 Toy.config <> "".
Proof.
  intros H.
  assert (Hparse : JSON_parse (JSON := Toy.JSON_StorageConfig)
                     (JSON_stringify (JSON := Toy.JSON_StorageConfig) 0 Toy.config)
                   = Some Toy.config)
    by apply (toy_json_parse_stringify 0%nat).
  rewrite H in Hparse. vm_compute in Hparse. discriminate Hparse.
Qed.

Lemma saveStorageConfig_then_get_witness :
  let b' := saveStorageConfig (JSON_StorageConfig := Toy.JSON_StorageConfig)
              Toy.config (Some Toy.browser) in
  getStorageConfig (JSON_StorageConfig := Toy.JSON_StorageConfig) b' = Some Toy.config /\
  isStorageConfigured (JSON_StorageConfig := Toy.JSON_StorageConfig) b' = true.
Proof.
  cbv zeta.
  destruct (saveStorageConfig_then_get (JSON_StorageConfig := Toy.JSON_StorageConfig)
              Toy.config Toy.browser eq_refl toy_config_text_nonempty
              (toy_json_parse_stringify 0%nat _))
    as (Hget & Hconfigured & _).
  split; [exact Hget|]. apply Hconfigured. repeat split; discriminate.
Defined.

Lemma rename_move_then_lookup_witness :
  let w := Toy.unlocked [] [] [] in
  fst (getFileFromManifest "f1" (snd (renameFile Toy.config "f1" "z.txt" w)))
    = Ok (Some (FileInfo.with_fileName "z.txt" Toy.file_a)) /\
  fst (getFileFromManifest "f1" (snd (moveFileToFolder Toy.config "f1" None w)))
    = Ok (Some (FileInfo.with_folderId None Toy.file_a)).
Proof.
  cbv zeta.
  destruct (rename_move_then_lookup Toy.config "f1" (Toy.unlocked [] [] [])
              Toy.manifest Toy.masterKey 0%nat Toy.file_a eq_refl eq_refl eq_refl)
    as [Hrename Hmove].
  split; [exact (proj1 (Hrename "z.txt")) | exact (proj1 (Hmove None))].
Defined.

Lemma getFavoriteFiles_lists_witness :
  exists favorites,
    getFavoriteFiles (Toy.unlocked [] [] []) = (Ok favorites, Toy.unlocked [] [] []) /\
    (Toy.file_b ∈ favorites <->
       Toy.file_b ∈ Manifest.files Toy.manifest /\ FileInfo.isFavorite Toy.file_b = true).
Proof.
  destruct (getFavoriteFiles_lists Toy.config (Toy.unlocked [] [] []) Toy.manifest
              Toy.masterKey eq_refl eq_refl)
    as [(favorites & Hrun & Hmem & _) _].
  exists favorites. split; [exact Hrun | exact (Hmem Toy.file_b)].
Defined.

Example getFavoriteFiles_example :
  fst (getFavoriteFiles (Toy.unlocked [] [] [])) = Ok [Toy.file_b].
Proof. reflexivity. Qed.

Example generateKeyPair_example :
  fst (generateKeyPair (ed25519 := Toy.ed25519) (Toy.world [] [] []))
    = Ok ("2a2a2a2a2a2a2a2a2a2a2a2a2a2a2a2a2a2a2a2a2a2a2a2a2a2a2a2a2a2a2a2a",
          "2a2a2a2a2a2a2a2a2a2a2a2a2a2a2a2a2a2a2a2a2a2a2a2a2a2a2a2a2a2a2a2a").
Proof. reflexivity. Qed.
